(** * A shallow embedding of the code-review worker

    The repository is a Cloudflare Worker (the request router,
    [src/index.ts]) in front of a Durable Object ([ReviewSession],
    [src/review-session.ts]) that keeps the review history of one
    session, and two prompt templates ([src/prompts.ts]).

    The TypeScript is effectful: it reads the clock ([Date.now()]), draws
    identifiers ([crypto.randomUUID()]), talks to the object's storage
    ([ctx.storage.get/put], which may reject) and to the inference
    service ([env.AI.run], which may reject).  All of this is threaded
    explicitly through a state-and-exception monad; the outside world
    is a record of oracles indexed by how often each effect was used. *)

From Stdlib Require Import ZArith List Lia.
From stdpp Require Import base option list strings gmap.
Import ListNotations.
Local Open Scope Z_scope.
Local Open Scope string_scope.
Local Open Scope list_scope.

(** ** Exceptions and state *)

(** A JavaScript computation either returns a value or throws; in both
    cases the mutations it made stay. *)
Inductive Outcome (A : Type) : Type :=
| Ok (a : A)
| Throw (err : string).
Arguments Ok {A} a.
Arguments Throw {A} err.

Definition M (S A : Type) : Type := S -> Outcome A * S.

Definition ret {S A : Type} (a : A) : M S A := fun s => (Ok a, s).

Definition throw {S A : Type} (err : string) : M S A := fun s => (Throw err, s).

Definition bind {S A B : Type} (m : M S A) (k : A -> M S B) : M S B :=
  fun s =>
    match m s with
    | (Ok a, s') => k a s'
    | (Throw err, s') => (Throw err, s')
    end.

(** [try { m } catch (error) { h error }] *)
Definition try_catch {S A : Type} (m : M S A) (h : string -> M S A) : M S A :=
  fun s =>
    match m s with
    | (Ok a, s') => (Ok a, s')
    | (Throw err, s') => h err s'
    end.

Definition gets {S A : Type} (f : S -> A) : M S A := fun s => (Ok (f s), s).

Definition modify {S : Type} (f : S -> S) : M S unit := fun s => (Ok tt, f s).

Declare Scope js_scope.
Delimit Scope js_scope with js.
Notation "'let*' x ':=' m 'in' k" := (bind m (fun x => k))
  (at level 10, x name, m at level 100, k at level 200) : js_scope.
Notation "m ';;' k" := (bind m (fun _ => k))
  (at level 100, k at level 200, right associativity) : js_scope.

(** ** The runtime *)

(** How many times each effect has been used so far. *)
Record Ctr : Type := mkCtr {
  n_clock : nat;
  n_uuid : nat;
  n_io : nat;
  n_ai : nat;
}.

Definition tick_clock (c : Ctr) : Ctr :=
  mkCtr (S (n_clock c)) (n_uuid c) (n_io c) (n_ai c).
Definition tick_uuid (c : Ctr) : Ctr :=
  mkCtr (n_clock c) (S (n_uuid c)) (n_io c) (n_ai c).
Definition tick_io (c : Ctr) : Ctr :=
  mkCtr (n_clock c) (n_uuid c) (S (n_io c)) (n_ai c).
Definition tick_ai (c : Ctr) : Ctr :=
  mkCtr (n_clock c) (n_uuid c) (n_io c) (S (n_ai c)).

(** The two operations the program performs on an object's storage. *)
Inductive StorageOp : Type := Get | Put.

(** The platform: the [n]-th reading of the clock, the [n]-th random
    identifier, and whether the [n]-th storage operation, a load or a
    save, rejects (and with which error). *)
Record Platform : Type := mkPlatform {
  clock : nat -> Z;
  uuid : nat -> string;
  storage_fault : nat -> StorageOp -> option string;
}.

(** JavaScript truthiness of an optional string: [undefined] and the
    empty string are falsy. *)
Definition truthy (o : option string) : bool :=
  match o with
  | Some s => negb (bool_decide (s = ""))
  | None => false
  end.

(** ** The data both source files share *)

(** [interface ReviewEntry] *)
Record ReviewEntry : Type := mkReviewEntry {
  id : string;
  timestamp : Z;
  code : string;
  language : string;
  review : string;
  context : option string;
}.

(** [interface SessionState] *)
Record SessionState : Type := mkSessionState {
  reviews : list ReviewEntry;
  createdAt : Z;
  lastAccessedAt : Z;
}.

(** What [getMetadata] returns. *)
Record Metadata : Type := mkMetadata {
  reviewCount : nat;
  md_createdAt : Z;
  md_lastAccessedAt : Z;
}.

(** The bodies of the responses this program builds: plain text, or one
    of the JSON objects it passes to [Response.json]. *)
Inductive Body : Type :=
| Empty
| Text (s : string)
| JReviews (l : list ReviewEntry)
| JEntry (e : ReviewEntry)
| JMetadata (m : Metadata)
| JSuccess
| JError (error : string) (message : option string)
| JReviewResult (sessionId review reviewId : string) (isFollowUp : bool)
                (timestamp : Z)
| JHealth (timestamp : Z).

Record Response : Type := mkResponse {
  status : Z;
  headers : list (string * string);
  body : Body;
}.

(** [response.json()]: the texts this program sends (['Not Found'],
    ['Error: ...']) are not JSON, and an empty body is not either. *)
Definition json {S : Type} (r : Response) : M S Body :=
  match body r with
  | Empty => throw "SyntaxError: Unexpected end of JSON input"
  | Text _ => throw "SyntaxError: Unexpected token in JSON"
  | b => ret b
  end.

(** ** src/review-session.ts *)

Module ReviewSession.

(** One Durable Object: the field [this.state], the value stored under
    the key ['state'] of [this.ctx.storage] (absent until the first
    [put]), and the effect counters.  Storage holds serialised copies:
    what [get] returns does not alias what is stored. *)
Record DO : Type := mkDO {
  this_state : SessionState;
  storage : option SessionState;
  ctr : Ctr;
}.

Definition set_state (f : SessionState -> SessionState) (d : DO) : DO :=
  mkDO (f (this_state d)) (storage d) (ctr d).
Definition set_ctr (f : Ctr -> Ctr) (d : DO) : DO :=
  mkDO (this_state d) (storage d) (f (ctr d)).

Definition set_reviews (l : list ReviewEntry) (s : SessionState) : SessionState :=
  mkSessionState l (createdAt s) (lastAccessedAt s).
Definition set_lastAccessedAt (t : Z) (s : SessionState) : SessionState :=
  mkSessionState (reviews s) (createdAt s) t.

Section Store.
Variable P : Platform.

Local Open Scope js_scope.

(** [Date.now()] *)
Definition Date_now : M DO Z :=
  fun d => (Ok (clock P (n_clock (ctr d))), set_ctr tick_clock d).

(** [crypto.randomUUID()] *)
Definition randomUUID : M DO string :=
  fun d => (Ok (uuid P (n_uuid (ctr d))), set_ctr tick_uuid d).

(** [this.ctx.storage.get<SessionState>('state')] *)
Definition storage_get : M DO (option SessionState) :=
  fun d =>
    match storage_fault P (n_io (ctr d)) Get with
    | Some err => (Throw err, set_ctr tick_io d)
    | None => (Ok (storage d), set_ctr tick_io d)
    end.

(** [this.ctx.storage.put('state', v)] *)
Definition storage_put (v : SessionState) : M DO unit :=
  fun d =>
    match storage_fault P (n_io (ctr d)) Put with
    | Some err => (Throw err, set_ctr tick_io d)
    | None => (Ok tt, mkDO (this_state d) (Some v) (tick_io (ctr d)))
    end.

(** The constructor, run when the platform instantiates the object for
    a key: [stored] is what the key's storage holds, [c] the counters. *)
Definition constructor (stored : option SessionState) (c : Ctr) : DO :=
  mkDO (mkSessionState [] (clock P (n_clock c)) (clock P (S (n_clock c))))
       stored
       (tick_clock (tick_clock c)).

(** The platform drops the object from memory and instantiates it again. *)
Definition restart (d : DO) : DO := constructor (storage d) (ctr d).

Definition initialize : M DO unit :=
  let* stored := storage_get in
  match stored with
  | Some st =>
      modify (set_state (fun _ => st)) ;;
      let* now := Date_now in
      modify (set_state (set_lastAccessedAt now))
  | None => ret tt
  end.

Definition addReview (code language review : string) (context : option string)
  : M DO ReviewEntry :=
  initialize ;;
  let* i := randomUUID in
  let* t := Date_now in
  let entry := mkReviewEntry i t code language review context in
  modify (set_state (fun s => set_reviews (reviews s ++ [entry]) s)) ;;
  let* now := Date_now in
  modify (set_state (set_lastAccessedAt now)) ;;
  let* st := gets this_state in
  storage_put st ;;
  ret entry.

Definition getReviews : M DO (list ReviewEntry) :=
  initialize ;;
  let* now := Date_now in
  modify (set_state (set_lastAccessedAt now)) ;;
  let* st := gets this_state in
  storage_put st ;;
  gets (fun d => reviews (this_state d)).

Definition getReview (i : string) : M DO (option ReviewEntry) :=
  initialize ;;
  let* st := gets this_state in
  ret (List.find (fun r => bool_decide (id r = i)) (reviews st)).

Definition getLatestReview : M DO (option ReviewEntry) :=
  initialize ;;
  let* st := gets this_state in
  if (length (reviews st) =? 0)%nat then ret None
  else ret (reviews st !! (length (reviews st) - 1)%nat).

Definition getMetadata : M DO Metadata :=
  initialize ;;
  let* st := gets this_state in
  ret (mkMetadata (length (reviews st)) (createdAt st) (lastAccessedAt st)).

Definition clearReviews : M DO unit :=
  modify (set_state (set_reviews [])) ;;
  let* now := Date_now in
  modify (set_state (set_lastAccessedAt now)) ;;
  let* st := gets this_state in
  storage_put st.

(** The request the object's [fetch] receives; [req_body] is what
    [request.json()] yields, [None] when the body does not parse. *)
Record AddReviewBody : Type := mkAddReviewBody {
  b_code : string;
  b_language : string;
  b_review : string;
  b_context : option string;
}.

Record Request : Type := mkRequest {
  req_path : string;
  req_method : string;
  req_body : option AddReviewBody;
}.

Definition request_json (request : Request) : M DO AddReviewBody :=
  match req_body request with
  | Some b => ret b
  | None => throw "SyntaxError: Unexpected end of JSON input"
  end.

Definition not_found : Response := mkResponse 404 [] (Text "Not Found").

Definition fetch (request : Request) : M DO Response :=
  let path := req_path request in
  try_catch
    (if bool_decide (path = "/reviews") then
       if bool_decide (req_method request = "GET") then
         let* reviews := getReviews in
         ret (mkResponse 200 [] (JReviews reviews))
       else ret not_found
     else if bool_decide (path = "/add-review") then
       if bool_decide (req_method request = "POST") then
         let* body := request_json request in
         let* entry :=
           addReview (b_code body) (b_language body) (b_review body)
                     (b_context body) in
         ret (mkResponse 200 [] (JEntry entry))
       else ret not_found
     else if bool_decide (path = "/metadata") then
       if bool_decide (req_method request = "GET") then
         let* metadata := getMetadata in
         ret (mkResponse 200 [] (JMetadata metadata))
       else ret not_found
     else if bool_decide (path = "/clear") then
       if bool_decide (req_method request = "POST") then
         clearReviews ;;
         ret (mkResponse 200 [] JSuccess)
       else ret not_found
     else ret not_found)
    (fun error => ret (mkResponse 500 [] (Text ("Error: " +:+ error)))).

End Store.

End ReviewSession.

(** ** src/prompts.ts *)

Module Prompts.

(** The line feed written [\n] in the templates. *)
Definition LF : string := String (Ascii.ascii_of_nat 10) EmptyString.

(** Three backquotes, the code fence. *)
Definition FENCE : string := "```".

Definition SYSTEM_PROMPT : string :=
"You are an expert code reviewer with deep knowledge of software engineering best practices, security vulnerabilities, and code quality standards.

Your role is to:
1. Identify bugs, security vulnerabilities, and potential runtime errors
2. Suggest improvements for code readability and maintainability
3. Point out violations of best practices and design patterns
4. Recommend optimizations where applicable
5. Explain your findings clearly and constructively

Provide your review in a structured format with:
- **Summary**: Brief overview of the code quality
- **Issues Found**: List of problems with severity (Critical/High/Medium/Low)
- **Suggestions**: Specific improvements with code examples where helpful
- **Positive Notes**: What the code does well

Be thorough but concise. Focus on actionable feedback.".

Definition createCodeReviewPrompt (code language : string)
  (context : option string) : string :=
  let prompt :=
    "Please review the following " +:+ language +:+ " code:" +:+ LF +:+ LF
    +:+ FENCE +:+ language +:+ LF +:+ code +:+ LF +:+ FENCE +:+ LF in
  let prompt :=
    if truthy context then
      prompt +:+ LF +:+ "Additional context: " +:+ default "" context +:+ LF
    else prompt in
  prompt +:+ LF
  +:+ "Provide a comprehensive code review following the format specified in your system prompt.".

Definition createFollowUpPrompt (previousReview newCode language : string)
  : string :=
  "Based on your previous review:" +:+ LF +:+ LF +:+ previousReview
  +:+ LF +:+ LF +:+ "The code has been updated to:" +:+ LF +:+ LF
  +:+ FENCE +:+ language +:+ LF +:+ newCode +:+ LF +:+ FENCE +:+ LF +:+ LF
  +:+ "Please review the changes and confirm if the previous issues were addressed or if new issues have been introduced.".

End Prompts.

(** ** src/index.ts *)

Module Worker.

(** [interface ReviewRequest], as [request.json()] parses a JSON object:
    a field that is absent is [None]. *)
Record ReviewRequest : Type := mkReviewRequest {
  rq_code : option string;
  rq_language : option string;
  rq_context : option string;
  rq_sessionId : option string;
}.

(** An inbound request: [req_param] is
    [url.searchParams.get('sessionId')], [req_body] what
    [request.json()] yields ([None] when the body does not parse). *)
Record Request : Type := mkRequest {
  req_method : string;
  req_path : string;
  req_param : option string;
  req_body : option ReviewRequest;
}.

Record Message : Type := mkMessage {
  role : string;
  content : string;
}.

(** The second argument of [env.AI.run]; the temperature is kept as the
    decimal literal of the source. *)
Record AiInputs : Type := mkAiInputs {
  messages : list Message;
  max_tokens : Z;
  temperature : string;
}.

(** What [env.AI.run] resolves to: its [response] field, and the text
    [JSON.stringify] gives for the whole object. *)
Record AiResponse : Type := mkAiResponse {
  response : option string;
  stringified : string;
}.

(** [interface Env]: the inference service (its [n]-th call resolves or
    rejects) and the static assets; the namespace [REVIEW_SESSIONS] is
    state and lives in [World]. *)
Record Env : Type := mkEnv {
  AI_run : nat -> string -> AiInputs -> Outcome AiResponse;
  ASSETS : option (Request -> Response);
}.

(** What the worker did to its collaborators, in order. *)
Inductive Event : Type :=
| DoFetch (key : string) (request : ReviewSession.Request)
| AiRun (model : string) (inputs : AiInputs).

(** The namespace of Durable Objects, by session name: the objects that
    are in memory ([instances], their [this.state]) and what each
    object's storage holds ([storages]). *)
Record World : Type := mkWorld {
  instances : gmap string SessionState;
  storages : gmap string SessionState;
  ctr : Ctr;
  trace : list Event;
}.

Section Router.
Variable P : Platform.
Variable E : Env.

Local Open Scope js_scope.

Definition Date_now : M World Z :=
  fun w =>
    (Ok (clock P (n_clock (ctr w))),
     mkWorld (instances w) (storages w) (tick_clock (ctr w)) (trace w)).

Definition randomUUID : M World string :=
  fun w =>
    (Ok (uuid P (n_uuid (ctr w))),
     mkWorld (instances w) (storages w) (tick_uuid (ctr w)) (trace w)).

(** [env.AI.run(model, inputs)] *)
Definition AI (model : string) (inputs : AiInputs) : M World AiResponse :=
  fun w =>
    (AI_run E (n_ai (ctr w)) model inputs,
     mkWorld (instances w) (storages w) (tick_ai (ctr w))
             (trace w ++ [AiRun model inputs])).

(** [env.REVIEW_SESSIONS.get(env.REVIEW_SESSIONS.idFromName(key)).fetch(request)]:
    the platform instantiates the object when it is not in memory, runs
    its [fetch], and the object and its storage stay behind. *)
Definition object_of (key : string) (w : World) : ReviewSession.DO :=
  match instances w !! key with
  | Some st => ReviewSession.mkDO st (storages w !! key) (ctr w)
  | None => ReviewSession.constructor P (storages w !! key) (ctr w)
  end.

Definition session_fetch (key : string) (request : ReviewSession.Request)
  : M World Response :=
  fun w =>
    let '(r, d') := ReviewSession.fetch P request (object_of key w) in
    (r,
     mkWorld (<[key := ReviewSession.this_state d']> (instances w))
             (match ReviewSession.storage d' with
              | Some v => <[key := v]> (storages w)
              | None => storages w
              end)
             (ReviewSession.ctr d')
             (trace w ++ [DoFetch key request])).

Definition request_json (request : Request) : M World ReviewRequest :=
  match req_body request with
  | Some b => ret b
  | None => throw "SyntaxError: Unexpected end of JSON input"
  end.

Definition corsHeaders : list (string * string) :=
  [("Access-Control-Allow-Origin", "*");
   ("Access-Control-Allow-Methods", "GET, POST, OPTIONS");
   ("Access-Control-Allow-Headers", "Content-Type")].

Definition MODEL : string := "@cf/meta/llama-3.3-70b-instruct-fp8-fast".

(** The string behind a truthy optional string. *)
Definition str (o : option string) : string := default "" o.

Definition handleReviewRequest (request : Request) : M World Response :=
  let* body := request_json request in
  let code := rq_code body in
  let language := rq_language body in
  let context := rq_context body in
  let sessionId := rq_sessionId body in
  if negb (truthy code) || negb (truthy language) then
    ret (mkResponse 400 corsHeaders
           (JError "Missing required fields: code and language" None))
  else
    (* Get or create session *)
    let* sessionKey :=
      if truthy sessionId then ret (str sessionId) else randomUUID in
    (* Check if this is a follow-up review *)
    let* latestReviewResponse :=
      session_fetch sessionKey
        (ReviewSession.mkRequest "/reviews" "GET" None) in
    let* parsed := json latestReviewResponse in
    let* reviews :=
      match parsed with
      | JReviews l => ret l
      | _ => throw "TypeError: Cannot read properties of undefined"
      end in
    let isFollowUp := (0 <? length reviews)%nat in
    (* Create appropriate prompt *)
    let* userPrompt :=
      if isFollowUp then
        match reviews !! (length reviews - 1)%nat with
        | Some latestReview =>
            ret (Prompts.createFollowUpPrompt (review latestReview)
                   (str code) (str language))
        | None => throw "TypeError: Cannot read properties of undefined"
        end
      else ret (Prompts.createCodeReviewPrompt (str code) (str language) context) in
    (* Call Workers AI *)
    let* aiResponse :=
      AI MODEL
         (mkAiInputs [mkMessage "system" Prompts.SYSTEM_PROMPT;
                      mkMessage "user" userPrompt]
                     2048 "0.7") in
    (* Extract review text from AI response *)
    let review :=
      if truthy (response aiResponse) then str (response aiResponse)
      else stringified aiResponse in
    (* Store review in session *)
    let* reviewEntry :=
      session_fetch sessionKey
        (ReviewSession.mkRequest "/add-review" "POST"
           (Some (ReviewSession.mkAddReviewBody (str code) (str language)
                    review context))) in
    (* Get the stored entry *)
    let* storedEntry := json reviewEntry in
    let stored_id :=
      match storedEntry with
      | JEntry e => Some (id e)
      | _ => None
      end in
    let* reviewId :=
      if truthy stored_id then ret (str stored_id) else randomUUID in
    let* now := Date_now in
    ret (mkResponse 200 corsHeaders
           (JReviewResult sessionKey review reviewId isFollowUp now)).

Definition handleGetReviews (request : Request) : M World Response :=
  let sessionId := req_param request in
  if negb (truthy sessionId) then
    ret (mkResponse 400 corsHeaders (JError "Missing sessionId parameter" None))
  else
    let* response :=
      session_fetch (str sessionId)
        (ReviewSession.mkRequest "/reviews" "GET" None) in
    let* data := json response in
    ret (mkResponse 200 corsHeaders data).

Definition handleClearSession (request : Request) : M World Response :=
  let* body := request_json request in
  let sessionId := rq_sessionId body in
  if negb (truthy sessionId) then
    ret (mkResponse 400 corsHeaders (JError "Missing sessionId" None))
  else
    let* response :=
      session_fetch (str sessionId)
        (ReviewSession.mkRequest "/clear" "POST" None) in
    let* data := json response in
    ret (mkResponse 200 corsHeaders data).

Definition fetch (request : Request) : M World Response :=
  let path := req_path request in
  let method := req_method request in
  (* Handle CORS preflight *)
  if bool_decide (method = "OPTIONS") then
    ret (mkResponse 200 corsHeaders Empty)
  else
    try_catch
      (if bool_decide (path = "/api/review") && bool_decide (method = "POST")
       then handleReviewRequest request
       else if bool_decide (path = "/api/session/reviews")
               && bool_decide (method = "GET")
       then handleGetReviews request
       else if bool_decide (path = "/api/session/clear")
               && bool_decide (method = "POST")
       then handleClearSession request
       else if bool_decide (path = "/api/health")
               && bool_decide (method = "GET")
       then
         let* now := Date_now in
         ret (mkResponse 200 corsHeaders (JHealth now))
       else
         (* Serve static assets (frontend) *)
         match ASSETS E with
         | Some assets => ret (assets request)
         | None => ret (mkResponse 404 corsHeaders (Text "Not Found"))
         end)
      (fun error =>
         ret (mkResponse 500 corsHeaders
                (JError "Internal Server Error" (Some error)))).

End Router.

End Worker.

(** ** Observations used to state the properties *)

(** The review list of a session as any operation that starts with
    [initialize] sees it: the persisted list when the key has persisted
    state, else the list of the object in memory. *)
Definition history (d : ReviewSession.DO) : list ReviewEntry :=
  match ReviewSession.storage d with
  | Some st => reviews st
  | None => reviews (ReviewSession.this_state d)
  end.

(** The same for the session named [key] in the worker's namespace; a
    key that was never touched has the empty list. *)
Definition session_history (w : Worker.World) (key : string) : list ReviewEntry :=
  match Worker.storages w !! key with
  | Some st => reviews st
  | None =>
      match Worker.instances w !! key with
      | Some st => reviews st
      | None => []
      end
  end.

(** The events a request added to the trace. *)
Definition new_events (w w' : Worker.World) : list Worker.Event :=
  drop (length (Worker.trace w)) (Worker.trace w').

(** One call of [addReview]; when [cold] the platform has dropped the
    object from memory since the previous call and instantiates it
    again. *)
Record AddCall : Type := mkAddCall {
  cold : bool;
  a_code : string;
  a_language : string;
  a_review : string;
  a_context : option string;
}.

Definition addReview_call (P : Platform) (c : AddCall)
  : M ReviewSession.DO ReviewEntry :=
  fun d =>
    ReviewSession.addReview P (a_code c) (a_language c) (a_review c)
      (a_context c)
      (if cold c then ReviewSession.restart P d else d).

(** A run of consecutive [addReview] calls, each awaited before the
    next; the entries they return, in order. *)
Fixpoint addReviews (P : Platform) (calls : list AddCall)
  : M ReviewSession.DO (list ReviewEntry) :=
  match calls with
  | [] => ret []
  | c :: cs =>
      bind (addReview_call P c) (fun e =>
      bind (addReviews P cs) (fun es => ret (e :: es)))
  end.

(** The operations of the session store, and running one for its effect
    on the object. *)
Inductive Op : Type :=
| OpInitialize
| OpAddReview (code language review : string) (context : option string)
| OpGetReviews
| OpGetReview (i : string)
| OpGetLatestReview
| OpGetMetadata
| OpClearReviews.

Definition run_op (P : Platform) (op : Op) : M ReviewSession.DO unit :=
  match op with
  | OpInitialize => ReviewSession.initialize P
  | OpAddReview c l r x =>
      bind (ReviewSession.addReview P c l r x) (fun _ => ret tt)
  | OpGetReviews => bind (ReviewSession.getReviews P) (fun _ => ret tt)
  | OpGetReview i => bind (ReviewSession.getReview P i) (fun _ => ret tt)
  | OpGetLatestReview =>
      bind (ReviewSession.getLatestReview P) (fun _ => ret tt)
  | OpGetMetadata => bind (ReviewSession.getMetadata P) (fun _ => ret tt)
  | OpClearReviews => ReviewSession.clearReviews P
  end.

(** Operations that write the state back to storage. *)
Definition persists (op : Op) : bool :=
  match op with
  | OpAddReview _ _ _ _ | OpGetReviews | OpClearReviews => true
  | _ => false
  end.

(** "The lastAccessedAt of the state was set to the current time by the
    operation that took the object from [d] to [d']": it holds a reading
    of the clock taken since the operation began. *)
Definition refreshed (P : Platform) (d d' : ReviewSession.DO) : Prop :=
  exists n, (n_clock (ReviewSession.ctr d) <= n)%nat /\
    lastAccessedAt (ReviewSession.this_state d') = clock P n.

(** The session a submission addresses: the session id it carries, or
    the next random identifier when that is missing or empty. *)
Definition session_key (P : Platform) (b : Worker.ReviewRequest)
  (w : Worker.World) : string :=
  if truthy (Worker.rq_sessionId b) then Worker.str (Worker.rq_sessionId b)
  else uuid P (n_uuid (Worker.ctr w)).

(** The two requests the worker sends to a session object. *)
Definition reviews_request : ReviewSession.Request :=
  ReviewSession.mkRequest "/reviews" "GET" None.

Definition is_add_review (ev : Worker.Event) : Prop :=
  match ev with
  | Worker.DoFetch _ request => ReviewSession.req_path request = "/add-review"
  | Worker.AiRun _ _ => False
  end.

(** The user message of a submission [b] to a session whose list is
    [hist], and the inputs of the inference call that carries it. *)
Definition user_prompt (hist : list ReviewEntry) (b : Worker.ReviewRequest)
  : string :=
  match last hist with
  | Some latest =>
      Prompts.createFollowUpPrompt (review latest)
        (Worker.str (Worker.rq_code b)) (Worker.str (Worker.rq_language b))
  | None =>
      Prompts.createCodeReviewPrompt
        (Worker.str (Worker.rq_code b)) (Worker.str (Worker.rq_language b))
        (Worker.rq_context b)
  end.

Definition ai_inputs (prompt : string) : Worker.AiInputs :=
  Worker.mkAiInputs
    [Worker.mkMessage "system" Prompts.SYSTEM_PROMPT;
     Worker.mkMessage "user" prompt]
    2048 "0.7".

(** The review text the router takes from an inference response. *)
Definition review_text (a : Worker.AiResponse) : string :=
  if truthy (Worker.response a) then Worker.str (Worker.response a)
  else Worker.stringified a.

(** The [catch] of the worker's [fetch]. *)
Definition internal_error (error : string) : M Worker.World Response :=
  ret (mkResponse 500 Worker.corsHeaders
         (JError "Internal Server Error" (Some error))).

(** Requests that lack a required field, with the message of the
    validation error each one gets. *)
Inductive missing_fields : Worker.Request -> string -> Prop :=
| missing_submit request b :
    Worker.req_method request = "POST" ->
    Worker.req_path request = "/api/review" ->
    Worker.req_body request = Some b ->
    Worker.rq_code b = None \/ Worker.rq_language b = None ->
    missing_fields request "Missing required fields: code and language"
| missing_list request :
    Worker.req_method request = "GET" ->
    Worker.req_path request = "/api/session/reviews" ->
    Worker.req_param request = None ->
    missing_fields request "Missing sessionId parameter"
| missing_clear request b :
    Worker.req_method request = "POST" ->
    Worker.req_path request = "/api/session/clear" ->
    Worker.req_body request = Some b ->
    Worker.rq_sessionId b = None ->
    missing_fields request "Missing sessionId".

(** The (path, method) pairs the session object's [fetch] serves. *)
Definition routed (request : ReviewSession.Request) : Prop :=
  (ReviewSession.req_path request = "/reviews" /\
   ReviewSession.req_method request = "GET") \/
  (ReviewSession.req_path request = "/add-review" /\
   ReviewSession.req_method request = "POST") \/
  (ReviewSession.req_path request = "/metadata" /\
   ReviewSession.req_method request = "GET") \/
  (ReviewSession.req_path request = "/clear" /\
   ReviewSession.req_method request = "POST").

(** The request with which the worker clears a session object. *)
Definition clear_request : ReviewSession.Request :=
  ReviewSession.mkRequest "/clear" "POST" None.

(** The state an operation that starts with [initialize] works on: the
    persisted one when there is one, else the one in memory. *)
Definition loaded (d : ReviewSession.DO) : SessionState :=
  default (ReviewSession.this_state d) (ReviewSession.storage d).

(** Every run of [m] relates the state before to the state after by [R],
    whether it returns or throws. *)
Definition preserves {S A : Type} (R : S -> S -> Prop) (m : M S A) : Prop :=
  forall s out s', m s = (out, s') -> R s s'.

(** No session lost or changed an entry: every list is a prefix of what
    it is afterwards. *)
Definition grows (w w' : Worker.World) : Prop :=
  forall k, session_history w k `prefix_of` session_history w' k.

(** The session a request to the worker addresses, by route. *)
Definition target (P : Platform) (request : Worker.Request) (w : Worker.World)
  : string :=
  if bool_decide (Worker.req_path request = "/api/review") then
    match Worker.req_body request with
    | Some b => session_key P b w
    | None => ""
    end
  else if bool_decide (Worker.req_path request = "/api/session/reviews") then
    Worker.str (Worker.req_param request)
  else
    match Worker.req_body request with
    | Some b => Worker.str (Worker.rq_sessionId b)
    | None => ""
    end.

(** The (path, method) pairs the worker routes to a handler. *)
Definition api_route (request : Worker.Request) : Prop :=
  (Worker.req_path request = "/api/review" /\
   Worker.req_method request = "POST") \/
  (Worker.req_path request = "/api/session/reviews" /\
   Worker.req_method request = "GET") \/
  (Worker.req_path request = "/api/session/clear" /\
   Worker.req_method request = "POST") \/
  (Worker.req_path request = "/api/health" /\
   Worker.req_method request = "GET").

(** The text of the follow-up prompt before the previous review, and
    the text after it, which depends on the new code and the language
    only. *)
Definition followup_head : string :=
  "Based on your previous review:" +:+ Prompts.LF +:+ Prompts.LF.

Definition followup_tail (newCode language : string) : string :=
  Prompts.LF +:+ Prompts.LF +:+ "The code has been updated to:"
  +:+ Prompts.LF +:+ Prompts.LF
  +:+ Prompts.FENCE +:+ language +:+ Prompts.LF +:+ newCode +:+ Prompts.LF
  +:+ Prompts.FENCE +:+ Prompts.LF +:+ Prompts.LF
  +:+ "Please review the changes and confirm if the previous issues were addressed or if new issues have been introduced.".

(** The load and the save of the [getReviews] with which a submission
    to the worker in [w] reads its session's history both succeed. *)
Definition read_succeeds (P : Platform) (w : Worker.World) : Prop :=
  storage_fault P (n_io (Worker.ctr w)) Get = None /\
  storage_fault P (S (n_io (Worker.ctr w))) Put = None.

(** ** Concrete platforms and sessions for the examples *)

Module Ex.

Definition c0 : Ctr := mkCtr 0 0 0 0.

Definition ids (n : nat) : string :=
  String (Ascii.ascii_of_nat (97 + n)) EmptyString.

(** The clock starts at 5000 and advances by one per reading; storage
    never fails. *)
Definition P_ok : Platform :=
  mkPlatform (fun n => 5000 + Z.of_nat n) ids (fun _ _ => None).

(** Identifiers that never repeat: the [n]-th is [n] strokes. *)
Fixpoint tally (n : nat) : string :=
  match n with
  | O => EmptyString
  | S n => String (Ascii.ascii_of_nat 105) (tally n)
  end.

Definition P_unique : Platform :=
  mkPlatform (fun n => 5000 + Z.of_nat n) tally (fun _ _ => None).

(** Every load fails, every save would succeed. *)
Definition P_load_fails : Platform :=
  mkPlatform (fun n => 5000 + Z.of_nat n) ids
    (fun _ op => match op with Get => Some "load failed" | Put => None end).

(** Every save fails, every load succeeds. *)
Definition P_save_fails : Platform :=
  mkPlatform (fun n => 5000 + Z.of_nat n) ids
    (fun _ op => match op with Get => None | Put => Some "save failed" end).

Definition e1 : ReviewEntry :=
  mkReviewEntry "r1" 1000 "x = 1" "python" "Looks fine." None.
Definition e2 : ReviewEntry :=
  mkReviewEntry "r2" 2000 "x = 2" "python" "Still fine." None.

(** A session created at time 1000 that holds one review. *)
Definition st1 : SessionState := mkSessionState [e1] 1000 1000.
Definition st2 : SessionState := mkSessionState [e1; e2] 1000 2000.

(** A freshly instantiated object for a key never used before, and one
    for a key whose storage holds [st1]. *)
Definition d_fresh : ReviewSession.DO := ReviewSession.constructor P_ok None c0.
Definition d_stored : ReviewSession.DO :=
  ReviewSession.constructor P_ok (Some st1) c0.

Definition call1 : AddCall := mkAddCall false "x = 1" "python" "ok" None.
Definition call2 : AddCall := mkAddCall true "x = 2" "python" "better" (Some "v2").

(** The inference service answers every call, or rejects every call. *)
Definition E_ok : Worker.Env :=
  Worker.mkEnv
    (fun _ _ _ => Ok (Worker.mkAiResponse (Some "LGTM") "{}"))
    None.
Definition E_down : Worker.Env :=
  Worker.mkEnv (fun _ _ _ => Throw "inference failed") None.

(** A namespace in which the session [s1] has persisted [st2] and is not
    in memory. *)
Definition w1 : Worker.World :=
  Worker.mkWorld ∅ {["s1" := st2]} c0 [].

Definition clear_s1 : Worker.Request :=
  Worker.mkRequest "POST" "/api/session/clear" None
    (Some (Worker.mkReviewRequest None None None (Some "s1"))).

Definition list_s1 : Worker.Request :=
  Worker.mkRequest "GET" "/api/session/reviews" (Some "s1") None.

Definition submit (code language sessionId : option string) : Worker.Request :=
  Worker.mkRequest "POST" "/api/review" None
    (Some (Worker.mkReviewRequest code language None sessionId)).

End Ex.

(** ** The session store *)

Ltac js_unfold :=
  unfold ReviewSession.addReview, ReviewSession.getReviews,
    ReviewSession.getReview, ReviewSession.getLatestReview,
    ReviewSession.getMetadata, ReviewSession.clearReviews,
    ReviewSession.initialize, ReviewSession.storage_get,
    ReviewSession.storage_put, ReviewSession.Date_now,
    ReviewSession.randomUUID, ReviewSession.set_state,
    ReviewSession.set_ctr, bind, ret, throw, gets, modify in *;
  cbn [ReviewSession.this_state ReviewSession.storage ReviewSession.ctr
       n_io n_clock n_uuid n_ai tick_io tick_clock tick_uuid
       ReviewSession.set_reviews ReviewSession.set_lastAccessedAt
       reviews createdAt lastAccessedAt] in *.

(** What [initialize] does, case by case. *)
Lemma initialize_spec P d :
  ReviewSession.initialize P d =
  match storage_fault P (n_io (ReviewSession.ctr d)) Get with
  | Some err => (Throw err, ReviewSession.set_ctr tick_io d)
  | None =>
      match ReviewSession.storage d with
      | Some st =>
          (Ok tt,
           ReviewSession.mkDO
             (ReviewSession.set_lastAccessedAt (clock P (n_clock (ReviewSession.ctr d))) st)
             (Some st)
             (tick_clock (tick_io (ReviewSession.ctr d))))
      | None => (Ok tt, ReviewSession.set_ctr tick_io d)
      end
  end.
Proof.
  destruct d as [st sto c]. js_unfold.
  destruct (storage_fault P (n_io c) Get); [reflexivity|].
  destruct sto; reflexivity.
Qed.

Lemma initialize_history P d out d' :
  ReviewSession.initialize P d = (out, d') ->
  history d' = history d /\
  ReviewSession.storage d' = ReviewSession.storage d /\
  (out = Ok tt -> reviews (ReviewSession.this_state d') = history d).
Proof.
  rewrite initialize_spec. destruct d as [st sto c]; simpl.
  destruct (storage_fault P (n_io c) Get); [intros [= <- <-]; auto|].
  - split; [reflexivity|]. split; [reflexivity|]. discriminate.
  - destruct sto; intros [= <- <-]; auto.
Qed.

(** A successful [addReview] appends exactly the entry it returns, built
    from its arguments, to the list the session had, and persists it. *)
Lemma addReview_appends P c l r x d e d' :
  ReviewSession.addReview P c l r x d = (Ok e, d') ->
  history d' = history d ++ [e] /\
  ReviewSession.storage d' = Some (ReviewSession.this_state d') /\
  code e = c /\ language e = l /\ review e = r /\ context e = x /\
  id e = uuid P (n_uuid (ReviewSession.ctr d)).
Proof.
  destruct d as [st sto k]. unfold history. js_unfold.
  destruct (storage_fault P (n_io k) Get) eqn:Hget; [discriminate|].
  destruct sto as [s|]; js_unfold;
    destruct (storage_fault P (S (n_io k)) Put) eqn:Hput;
    try discriminate; intros [= <- <-]; simpl; auto 10.
Qed.

(** With no storage fault in sight [addReview] returns an entry. *)
Lemma addReview_total P c l r x d :
  (forall n op, storage_fault P n op = None) ->
  exists e d', ReviewSession.addReview P c l r x d = (Ok e, d').
Proof.
  intros HP. destruct d as [st sto k]. js_unfold. rewrite HP.
  destruct sto; js_unfold; rewrite HP; eauto.
Qed.

Lemma restart_history P d :
  ReviewSession.storage d <> None \/ history d = [] ->
  history (ReviewSession.restart P d) = history d.
Proof.
  destruct d as [st [s|] k]; unfold history; simpl; [reflexivity|].
  intros [H|H]; congruence.
Qed.

Lemma addReview_call_appends P c d e d' :
  ReviewSession.storage d <> None \/ history d = [] ->
  addReview_call P c d = (Ok e, d') ->
  history d' = history d ++ [e] /\ ReviewSession.storage d' <> None /\
  code e = a_code c /\ language e = a_language c /\
  review e = a_review c /\ context e = a_context c.
Proof.
  intros Hd. unfold addReview_call. intros H.
  apply addReview_appends in H as (Hh & Hs & Hc & Hl & Hr & Hx & _).
  split; [|rewrite Hs; auto 10].
  rewrite Hh. destruct (cold c); [|reflexivity].
  by rewrite restart_history.
Qed.

Lemma addReviews_app P l1 l2 d :
  addReviews P (l1 ++ l2) d =
  bind (addReviews P l1) (fun es1 =>
  bind (addReviews P l2) (fun es2 => ret (es1 ++ es2))) d.
Proof.
  revert d. induction l1 as [|c l1 IH]; intros d; simpl.
  - unfold bind, ret. destruct (addReviews P l2 d) as [[es|err] d']; reflexivity.
  - unfold bind, ret in *.
    destruct (addReview_call P c d) as [[e|err] d1]; [|reflexivity].
    rewrite IH.
    destruct (addReviews P l1 d1) as [[es1|err] d2]; [|reflexivity].
    destruct (addReviews P l2 d2) as [[es2|err] d3]; reflexivity.
Qed.

Lemma addReviews_history P calls : forall d es d',
  ReviewSession.storage d <> None \/ history d = [] ->
  addReviews P calls d = (Ok es, d') ->
  history d' = history d ++ es /\ length es = length calls /\
  (ReviewSession.storage d' <> None \/ history d' = []).
Proof.
  induction calls as [|c cs IH]; intros d es d' Hd; simpl.
  - unfold ret. intros [= <- <-]. rewrite app_nil_r. auto.
  - unfold bind at 1. destruct (addReview_call P c d) as [[e|err] d1] eqn:H1;
      [|discriminate].
    unfold bind, ret. destruct (addReviews P cs d1) as [[es1|err] d2] eqn:H2;
      [|discriminate].
    intros [= <- <-].
    apply addReview_call_appends in H1 as (Hh1 & Hs1 & _); [|assumption].
    apply IH in H2 as (Hh2 & Hl2 & Hd2); [|by left].
    split; [|split; [simpl; congruence|assumption]].
    rewrite Hh2, Hh1, <- app_assoc. reflexivity.
Qed.

Lemma addReviews_total P calls :
  (forall n op, storage_fault P n op = None) ->
  forall d, exists es d', addReviews P calls d = (Ok es, d').
Proof.
  intros HP. induction calls as [|c cs IH]; intros d; simpl.
  - unfold ret. eauto.
  - unfold addReview_call, bind at 1.
    destruct (addReview_total P (a_code c) (a_language c) (a_review c)
                (a_context c) (if cold c then ReviewSession.restart P d else d) HP)
      as (e & d1 & ->).
    unfold bind, ret. destruct (IH d1) as (es & d2 & ->). eauto.
Qed.

(** C2. Starting from an empty session, the N-th of N consecutive
    [addReview] calls (the object may be dropped from memory and
    instantiated again between calls) leaves a review list of length N:
    it is the list of the N-1 earlier entries, each unchanged and at its
    position, followed by the entry just built from the call's
    arguments.  The calls do return when storage does not fail. *)
Theorem addReview_nth_call P (calls : list AddCall) (c : AddCall) d :
  history d = [] ->
  (forall es' d'',
     addReviews P (calls ++ [c]) d = (Ok es', d'') ->
     exists es e d',
       addReviews P calls d = (Ok es, d') /\
       addReview_call P c d' = (Ok e, d'') /\
       history d' = es /\
       history d'' = es ++ [e] /\
       length (history d'') = S (length calls) /\
       last (history d'') = Some e /\
       (forall i, (i < length calls)%nat -> history d'' !! i = history d' !! i) /\
       code e = a_code c /\ language e = a_language c /\
       review e = a_review c /\ context e = a_context c) /\
  ((forall n op, storage_fault P n op = None) ->
   exists es' d'', addReviews P (calls ++ [c]) d = (Ok es', d'')).
Proof.
  intros Hd. split; [|intros HP; apply addReviews_total, HP].
  intros es' d''. rewrite addReviews_app. simpl. unfold bind, ret.
  destruct (addReviews P calls d) as [[es|err] d'] eqn:Hcalls; [|discriminate].
  destruct (addReview_call P c d') as [[e|err] d1] eqn:Hc; [|discriminate].
  intros [= <- <-].
  apply addReviews_history in Hcalls as (Hh & Hlen & Hd'); [|by right].
  rewrite Hd in Hh. simpl in Hh.
  pose proof Hc as Hcall.
  apply addReview_call_appends in Hc as (Hh1 & _ & Hfields); [|assumption].
  exists es, e, d'. rewrite Hh1, Hh.
  repeat split; try tauto.
  - rewrite length_app. simpl. lia.
  - apply last_snoc.
  - intros i Hi. apply lookup_app_l. lia.
Qed.

Lemma addReview_nth_call_witness :
  history Ex.d_fresh = [] /\
  exists es' d'',
    addReviews Ex.P_ok [Ex.call1; Ex.call2] Ex.d_fresh = (Ok es', d'') /\
    length (history d'') = 2%nat.
Proof.
  split; [reflexivity|].
  destruct (addReview_nth_call Ex.P_ok [Ex.call1] Ex.call2 Ex.d_fresh eq_refl)
    as [HA HB].
  destruct (HB (fun _ _ => eq_refl)) as (es' & d'' & Hrun).
  exists es', d''. split; [exact Hrun|].
  destruct (HA es' d'' Hrun) as (es & e & d' & _ & _ & _ & _ & Hlen & _).
  exact Hlen.
Defined.

(** On an object whose state in memory was loaded from storage,
    [clearReviews] keeps the creation time and refreshes the last
    access. *)
Lemma clearReviews_loaded_keeps_createdAt P d st d' :
  ReviewSession.storage d = Some st ->
  createdAt (ReviewSession.this_state d) = createdAt st ->
  ReviewSession.clearReviews P d = (Ok tt, d') ->
  ReviewSession.storage d' =
    Some (mkSessionState [] (createdAt st)
            (clock P (n_clock (ReviewSession.ctr d)))).
Proof.
  destruct d as [s sto k]. simpl. intros -> <-. js_unfold.
  destruct (storage_fault P (n_io k) Put); [discriminate|].
  by intros [= <-].
Qed.

(** C1. Every other operation loads the persisted state first;
    [clearReviews] does not.  On an object instantiated at time 5000 for a
    key whose storage holds a session created at time 1000,
    [clearReviews] as first operation persists the constructor's
    createdAt, 5000: the creation time of the session is lost.  The
    worker gets there with a clear request for a session that is not in
    memory. *)
Theorem clearReviews_first_resets_createdAt :
  (ReviewSession.storage Ex.d_stored = Some Ex.st1 /\
   createdAt Ex.st1 = 1000 /\
   exists d',
     ReviewSession.clearReviews Ex.P_ok Ex.d_stored = (Ok tt, d') /\
     ReviewSession.storage d' = Some (mkSessionState [] 5000 5002)) /\
  (Worker.instances Ex.w1 !! "s1" = None /\
   Worker.storages Ex.w1 !! "s1" = Some Ex.st2 /\
   createdAt Ex.st2 = 1000 /\
   exists w',
     Worker.fetch Ex.P_ok Ex.E_ok Ex.clear_s1 Ex.w1
     = (Ok (mkResponse 200 Worker.corsHeaders JSuccess), w') /\
     Worker.storages w' !! "s1" = Some (mkSessionState [] 5000 5002)).
Proof.
  split.
  - split; [reflexivity|]. split; [reflexivity|].
    eexists. split; reflexivity.
  - split; [reflexivity|]. split; [reflexivity|]. split; [reflexivity|].
    eexists. split; vm_compute; reflexivity.
Qed.

(** C4 as stated fails: on a fresh object for a key without persisted
    state, [getMetadata] reads no clock and leaves lastAccessedAt at the
    constructor's value. *)
Lemma getMetadata_fresh_not_refreshed :
  ~ (forall P op d d', run_op P op d = (Ok tt, d') -> refreshed P d d').
Proof.
  intros H.
  destruct (H Ex.P_ok OpGetMetadata Ex.d_fresh _ eq_refl) as (n & Hn & Hclock).
  simpl in Hn, Hclock. lia.
Qed.

(** C4, amended. [addReview], [getReviews] and [clearReviews] set
    lastAccessedAt to the clock reading they take last and persist the
    state with it.  [initialize], [getReview], [getLatestReview] and
    [getMetadata] never write to storage: when persisted state is found
    on load, the state in memory becomes that state with lastAccessedAt
    set to the current time; when none is found, nothing changes. *)
Theorem lastAccessedAt_updates P op d d' :
  run_op P op d = (Ok tt, d') ->
  if persists op then
    (n_clock (ReviewSession.ctr d) < n_clock (ReviewSession.ctr d'))%nat /\
    lastAccessedAt (ReviewSession.this_state d')
      = clock P (pred (n_clock (ReviewSession.ctr d'))) /\
    ReviewSession.storage d' = Some (ReviewSession.this_state d')
  else
    ReviewSession.storage d' = ReviewSession.storage d /\
    match ReviewSession.storage d with
    | Some st =>
        ReviewSession.this_state d'
          = ReviewSession.set_lastAccessedAt
              (clock P (n_clock (ReviewSession.ctr d))) st /\
        n_clock (ReviewSession.ctr d') = S (n_clock (ReviewSession.ctr d))
    | None =>
        ReviewSession.this_state d' = ReviewSession.this_state d /\
        n_clock (ReviewSession.ctr d') = n_clock (ReviewSession.ctr d)
    end.
Proof.
  destruct d as [st sto k].
  destruct op; unfold run_op; js_unfold; simpl;
    repeat match goal with
    | |- context [storage_fault P ?n ?o] => destruct (storage_fault P n o)
    | |- context [match sto with _ => _ end] => destruct sto; js_unfold; simpl
    | |- context [if ?b then _ else _] => destruct b
    end;
    try discriminate; intros [= <-]; simpl; repeat split; lia.
Qed.

Lemma lastAccessedAt_updates_witness :
  exists d',
    run_op Ex.P_ok OpGetReviews Ex.d_stored = (Ok tt, d') /\
    lastAccessedAt (ReviewSession.this_state d') = 5003 /\
    ReviewSession.storage d' = Some (ReviewSession.this_state d').
Proof.
  eexists. split; [reflexivity|].
  pose proof (lastAccessedAt_updates Ex.P_ok OpGetReviews Ex.d_stored _ eq_refl)
    as (_ & Ht & Hs).
  split; [exact Ht | exact Hs].
Defined.

(** C6 as stated fails: on a platform where no save ever fails,
    [addReview] still fails when the load that [initialize] performs
    fails. *)
Lemma addReview_fails_on_load :
  ~ (forall P c l r x d err d',
       ReviewSession.addReview P c l r x d = (Throw err, d') ->
       exists n, storage_fault P n Put = Some err).
Proof.
  intros H.
  destruct (H Ex.P_load_fails "x = 1" "python" "ok" None Ex.d_fresh
              "load failed" _ eq_refl) as (n & Hn).
  discriminate Hn.
Qed.

(** C6, amended. When the save fails, [addReview] throws the error of
    the save: no entry is returned, the save is attempted once, and what
    storage holds is unchanged.  [addReview] fails for no reason other
    than a failure of the underlying storage: the load that [initialize]
    performs, or the save.  When neither fails it returns an entry. *)
Theorem addReview_fails_only_on_storage P c l r x d out d' :
  ReviewSession.addReview P c l r x d = (out, d') ->
  let n := n_io (ReviewSession.ctr d) in
  (forall err,
     storage_fault P n Get = None -> storage_fault P (S n) Put = Some err ->
     out = Throw err /\ n_io (ReviewSession.ctr d') = S (S n) /\
     ReviewSession.storage d' = ReviewSession.storage d) /\
  (forall err,
     out = Throw err ->
     storage_fault P n Get = Some err \/
     (storage_fault P n Get = None /\ storage_fault P (S n) Put = Some err)) /\
  (storage_fault P n Get = None -> storage_fault P (S n) Put = None ->
   exists e, out = Ok e).
Proof.
  destruct d as [st sto k]. js_unfold.
  destruct (storage_fault P (n_io k) Get) eqn:Hget.
  - intros [= <- <-]. simpl. repeat split; try discriminate.
    intros err [= <-]. by left.
  - destruct sto as [s|]; js_unfold;
      destruct (storage_fault P (S (n_io k)) Put) eqn:Hput;
      intros [= <- <-]; simpl; repeat split; try congruence; eauto;
      intros err [= <-]; by right.
Qed.

Lemma addReview_fails_only_on_storage_witness :
  exists d',
    ReviewSession.addReview Ex.P_save_fails "x = 1" "python" "ok" None
      Ex.d_stored = (Throw "save failed", d') /\
    ReviewSession.storage d' = Some Ex.st1.
Proof.
  eexists. split; [vm_compute; reflexivity|].
  pose proof (addReview_fails_only_on_storage Ex.P_save_fails
                "x = 1" "python" "ok" None Ex.d_stored _ _ eq_refl) as (H & _).
  destruct (H "save failed" eq_refl eq_refl) as (_ & _ & Hs). exact Hs.
Defined.

(** What [getReviews] returns is the session's list, and it keeps it. *)
Lemma getReviews_history P d out d' :
  ReviewSession.getReviews P d = (out, d') ->
  history d' = history d /\
  (out = Ok (history d) \/
   exists err n op, out = Throw err /\ storage_fault P n op = Some err) /\
  (storage_fault P (n_io (ReviewSession.ctr d)) Get = None ->
   storage_fault P (S (n_io (ReviewSession.ctr d))) Put = None ->
   out = Ok (history d)).
Proof.
  destruct d as [st sto k]. unfold history. js_unfold.
  destruct (storage_fault P (n_io k) Get) eqn:Hget.
  - intros [= <- <-]. simpl. repeat split; [|discriminate]. right; eauto.
  - destruct sto as [s|]; js_unfold;
      destruct (storage_fault P (S (n_io k)) Put) eqn:Hput;
      intros [= <- <-]; simpl; repeat split; auto; try discriminate;
      right; eauto.
Qed.

(** C8. A [clearReviews] that succeeded leaves the empty list: the next
    [getReviews], on the same object or on a new instance of it, returns
    the empty sequence whatever the list was before (storage failing is
    its only other outcome).  Clearing a session whose list is already
    empty leaves it empty.  [clearReviews] succeeds when its save does. *)
Theorem clearReviews_then_getReviews P d out d1 :
  ReviewSession.clearReviews P d = (out, d1) ->
  (history d = [] -> history d1 = []) /\
  (storage_fault P (n_io (ReviewSession.ctr d)) Put = None -> out = Ok tt) /\
  (out = Ok tt ->
   history d1 = [] /\
   forall (evicted : bool) out2 d2,
     ReviewSession.getReviews P
       (if evicted then ReviewSession.restart P d1 else d1) = (out2, d2) ->
     (out2 = Ok [] \/
      exists err n op, out2 = Throw err /\ storage_fault P n op = Some err) /\
     ((forall n op, storage_fault P n op = None) -> out2 = Ok [])).
Proof.
  intros Hclear.
  assert (Hok : out = Ok tt -> history d1 = [] /\ ReviewSession.storage d1 <> None).
  { revert Hclear. destruct d as [st sto k]. unfold history. js_unfold.
    destruct (storage_fault P (n_io k) Put); intros [= <- <-]; [discriminate|].
    simpl. intros _. split; [reflexivity|discriminate]. }
  split; [|split].
  - revert Hclear. destruct d as [st sto k]. unfold history. js_unfold.
    destruct (storage_fault P (n_io k) Put); intros [= <- <-]; simpl; [|reflexivity].
    destruct sto; auto.
  - revert Hclear. destruct d as [st sto k]. js_unfold.
    intros H Hput. rewrite Hput in H. by injection H as <- <-.
  - intros Hout. destruct (Hok Hout) as [Hh Hs]. split; [assumption|].
    intros evicted out2 d2 Hget.
    apply getReviews_history in Hget as (_ & Hcases & Htotal).
    assert (Hh' : history (if evicted then ReviewSession.restart P d1 else d1) = []).
    { destruct evicted; [|assumption]. rewrite restart_history; auto. }
    rewrite Hh' in *. split; [assumption|]. intros HP. apply Htotal; apply HP.
Qed.

Lemma clearReviews_then_getReviews_witness :
  exists d1,
    ReviewSession.clearReviews Ex.P_ok
      (ReviewSession.mkDO Ex.st2 (Some Ex.st2) Ex.c0) = (Ok tt, d1) /\
    fst (ReviewSession.getReviews Ex.P_ok (ReviewSession.restart Ex.P_ok d1))
      = Ok [].
Proof.
  eexists. split; [vm_compute; reflexivity|].
  match goal with
  | |- fst ?run = _ => destruct run as [out2 d2] eqn:Hget
  end.
  pose proof (clearReviews_then_getReviews Ex.P_ok
                (ReviewSession.mkDO Ex.st2 (Some Ex.st2) Ex.c0) _ _ eq_refl)
    as (_ & _ & H).
  destruct (H eq_refl) as (_ & H2).
  destruct (H2 true _ _ Hget) as (_ & H3).
  exact (H3 (fun _ _ => eq_refl)).
Defined.

(** C9. When the load succeeds, [getReview] returns without raising:
    an entry of the session's list whose id is the argument, or the
    absent result when the list has no entry with that id.
    [getLatestReview] returns the last element of the list, absent when
    the list is empty. *)
Theorem getReview_getLatestReview P (i : string) d :
  storage_fault P (n_io (ReviewSession.ctr d)) Get = None ->
  (exists res d',
     ReviewSession.getReview P i d = (Ok res, d') /\
     match res with
     | Some e => In e (history d) /\ id e = i
     | None => forall e, In e (history d) -> id e <> i
     end) /\
  (exists d', ReviewSession.getLatestReview P d = (Ok (last (history d)), d')) /\
  (history d = [] ->
   exists d', ReviewSession.getLatestReview P d = (Ok None, d')).
Proof.
  intros Hget.
  assert (Hinit : exists d1, ReviewSession.initialize P d = (Ok tt, d1) /\
                    reviews (ReviewSession.this_state d1) = history d).
  { destruct (ReviewSession.initialize P d) as [out d1] eqn:Hi.
    pose proof Hi as Hi'. rewrite initialize_spec, Hget in Hi'.
    assert (out = Ok tt) as -> by (destruct (ReviewSession.storage d); congruence).
    apply initialize_history in Hi as (_ & _ & Hr). eauto. }
  destruct Hinit as (d1 & Hi & Hr).
  assert (Hlatest : exists d',
             ReviewSession.getLatestReview P d = (Ok (last (history d)), d')).
  { unfold ReviewSession.getLatestReview, bind at 1. rewrite Hi.
    unfold bind, gets, ret. rewrite Hr. exists d1.
    destruct (history d) as [|e l] eqn:Hh using rev_ind; [reflexivity|].
    rewrite length_app, last_snoc. simpl.
    replace (length l + 1 - 1)%nat with (length l) by lia.
    rewrite lookup_app_r, Nat.sub_diag by lia.
    destruct (length l + 1 =? 0)%nat eqn:Hz; [|reflexivity].
    apply Nat.eqb_eq in Hz. lia. }
  split; [|split; [exact Hlatest|]].
  - unfold ReviewSession.getReview, bind at 1. rewrite Hi.
    unfold bind, gets, ret. rewrite Hr.
    eexists _, d1. split; [reflexivity|].
    destruct (find _ (history d)) as [e|] eqn:Hfind.
    + apply find_some in Hfind as [Hin Hid].
      split; [assumption|]. by apply bool_decide_eq_true in Hid.
    + intros e Hin. eapply find_none in Hfind; [|exact Hin].
      by apply bool_decide_eq_false in Hfind.
  - intros Hempty. rewrite Hempty in Hlatest. exact Hlatest.
Qed.

Lemma getReview_getLatestReview_witness :
  exists d1 d2 d3,
    ReviewSession.getReview Ex.P_ok "r2"
      (ReviewSession.constructor Ex.P_ok (Some Ex.st2) Ex.c0)
      = (Ok (Some Ex.e2), d1) /\
    ReviewSession.getReview Ex.P_ok "nope"
      (ReviewSession.constructor Ex.P_ok (Some Ex.st2) Ex.c0)
      = (Ok None, d2) /\
    ReviewSession.getLatestReview Ex.P_ok
      (ReviewSession.constructor Ex.P_ok (Some Ex.st2) Ex.c0)
      = (Ok (Some Ex.e2), d3).
Proof.
  destruct (getReview_getLatestReview Ex.P_ok "r2"
              (ReviewSession.constructor Ex.P_ok (Some Ex.st2) Ex.c0) eq_refl)
    as (_ & (d3 & Hlatest) & _).
  eexists _, _, d3.
  split; [vm_compute; reflexivity|].
  split; [vm_compute; reflexivity|].
  exact Hlatest.
Defined.

(** ** The router *)

(** The object's [fetch] on the two requests the worker sends. *)
Lemma fetch_reviews P d :
  ReviewSession.fetch P reviews_request d =
  match ReviewSession.getReviews P d with
  | (Ok l, d') => (Ok (mkResponse 200 [] (JReviews l)), d')
  | (Throw err, d') => (Ok (mkResponse 500 [] (Text ("Error: " +:+ err))), d')
  end.
Proof.
  unfold ReviewSession.fetch, reviews_request, try_catch, bind, ret. simpl.
  destruct (ReviewSession.getReviews P d) as [[l|err] d']; reflexivity.
Qed.

Lemma fetch_add_review P b d :
  ReviewSession.fetch P
    (ReviewSession.mkRequest "/add-review" "POST" (Some b)) d =
  match ReviewSession.addReview P (ReviewSession.b_code b)
          (ReviewSession.b_language b) (ReviewSession.b_review b)
          (ReviewSession.b_context b) d with
  | (Ok e, d') => (Ok (mkResponse 200 [] (JEntry e)), d')
  | (Throw err, d') => (Ok (mkResponse 500 [] (Text ("Error: " +:+ err))), d')
  end.
Proof.
  unfold ReviewSession.fetch, ReviewSession.request_json, try_catch, bind, ret.
  simpl.
  destruct (ReviewSession.addReview P _ _ _ _ d) as [[l|err] d']; reflexivity.
Qed.

(** The object an untouched or resident key gets sees the history of
    its session. *)
Lemma object_of_history P key w :
  history (Worker.object_of P key w) = session_history w key.
Proof.
  unfold history, session_history, Worker.object_of.
  destruct (Worker.instances w !! key); simpl;
    destruct (Worker.storages w !! key); reflexivity.
Qed.

Lemma object_of_storage P key w :
  ReviewSession.storage (Worker.object_of P key w) = Worker.storages w !! key.
Proof. unfold Worker.object_of. by destruct (Worker.instances w !! key). Qed.

Lemma object_of_ctr P key w :
  n_ai (ReviewSession.ctr (Worker.object_of P key w)) = n_ai (Worker.ctr w).
Proof. unfold Worker.object_of. by destruct (Worker.instances w !! key). Qed.

(** [getReviews] does not call the inference service and never empties
    the storage. *)
Lemma getReviews_frame P d out d' :
  ReviewSession.getReviews P d = (out, d') ->
  n_ai (ReviewSession.ctr d') = n_ai (ReviewSession.ctr d) /\
  (ReviewSession.storage d' = None -> ReviewSession.storage d = None).
Proof.
  destruct d as [st sto k]. js_unfold.
  destruct (storage_fault P (n_io k) Get).
  - intros [= <- <-]. auto.
  - destruct sto as [s|]; js_unfold;
      destruct (storage_fault P (S (n_io k)) Put);
      intros [= <- <-]; simpl; split; congruence.
Qed.

(** [getReviews] through the stub: the response carries the history of
    the session or is the object's error text; no history changes. *)
Lemma session_fetch_reviews P key w out w' :
  Worker.session_fetch P key reviews_request w = (out, w') ->
  (forall k, session_history w' k = session_history w k) /\
  Worker.trace w' = Worker.trace w ++ [Worker.DoFetch key reviews_request] /\
  n_ai (Worker.ctr w') = n_ai (Worker.ctr w) /\
  (out = Ok (mkResponse 200 [] (JReviews (session_history w key))) \/
   exists err n op,
     storage_fault P n op = Some err /\
     out = Ok (mkResponse 500 [] (Text ("Error: " +:+ err)))).
Proof.
  unfold Worker.session_fetch. rewrite fetch_reviews.
  destruct (ReviewSession.getReviews P (Worker.object_of P key w))
    as [outg d'] eqn:Hg.
  pose proof (getReviews_frame _ _ _ _ Hg) as [Hai Hsto].
  rewrite object_of_ctr, object_of_storage in *.
  apply getReviews_history in Hg as (Hh & Hcases & _).
  rewrite object_of_history in *.
  assert (Hw : forall r,
    (forall k, session_history
       (Worker.mkWorld
          (<[key:=ReviewSession.this_state d']> (Worker.instances w))
          (match ReviewSession.storage d' with
           | Some v => <[key:=v]> (Worker.storages w)
           | None => Worker.storages w
           end) (ReviewSession.ctr d')
          (Worker.trace w ++ [Worker.DoFetch key r])) k
     = session_history w k)).
  { intros r k. unfold session_history at 1. simpl.
    destruct (decide (k = key)) as [->|Hne].
    - rewrite lookup_insert_eq, <- Hh. unfold history.
      destruct (ReviewSession.storage d') as [v|] eqn:Hs.
      + rewrite lookup_insert_eq. reflexivity.
      + rewrite (Hsto eq_refl). reflexivity.
    - rewrite lookup_insert_ne by congruence.
      destruct (ReviewSession.storage d') as [v|];
        [rewrite lookup_insert_ne by congruence|]; reflexivity. }
  destruct outg as [l|err]; intros [= <- <-]; simpl;
    (split; [apply Hw|]); (split; [reflexivity|]); (split; [exact Hai|]).
  - left. destruct Hcases as [[= ->]|(err & n & op & [=] & _)]. reflexivity.
  - right. destruct Hcases as [[=]|(err' & n & op & [= <-] & Hf)]. eauto.
Qed.

(** A request to one session object leaves the other sessions alone. *)
Lemma session_fetch_other P key request w out w' :
  Worker.session_fetch P key request w = (out, w') ->
  (forall k, k <> key -> session_history w' k = session_history w k) /\
  Worker.trace w' = Worker.trace w ++ [Worker.DoFetch key request].
Proof.
  unfold Worker.session_fetch.
  destruct (ReviewSession.fetch P request (Worker.object_of P key w))
    as [r d'].
  intros [= <- <-]. split; [|reflexivity].
  intros k Hne. unfold session_history. simpl.
  rewrite lookup_insert_ne by congruence.
  destruct (ReviewSession.storage d') as [v|];
    [rewrite lookup_insert_ne by congruence|]; reflexivity.
Qed.

Lemma addReview_outcome P c l r x d out d' :
  ReviewSession.addReview P c l r x d = (out, d') ->
  (exists e, out = Ok e) \/
  (exists err n op, storage_fault P n op = Some err /\ out = Throw err).
Proof.
  destruct d as [st sto k]. js_unfold.
  destruct (storage_fault P (n_io k) Get) eqn:Hget.
  - intros [= <- <-]. right. eauto.
  - destruct sto as [s|]; js_unfold;
      destruct (storage_fault P (S (n_io k)) Put) eqn:Hput;
      intros [= <- <-]; eauto 6.
Qed.

Lemma session_fetch_add_review P key b w out w' :
  Worker.session_fetch P key
    (ReviewSession.mkRequest "/add-review" "POST" (Some b)) w = (out, w') ->
  (exists e, out = Ok (mkResponse 200 [] (JEntry e))) \/
  (exists err n op,
     storage_fault P n op = Some err /\
     out = Ok (mkResponse 500 [] (Text ("Error: " +:+ err)))).
Proof.
  unfold Worker.session_fetch. rewrite fetch_add_review.
  destruct (ReviewSession.addReview P _ _ _ _ (Worker.object_of P key w))
    as [outa d'] eqn:Ha.
  apply addReview_outcome in Ha as [(e & ->)|(err & n & op & Hf & ->)];
    intros [= <- <-]; eauto 6.
Qed.

(** Reading the last element the way the router does. *)
Lemma latest_prompt {S : Type} (l : list ReviewEntry) (f : ReviewEntry -> string)
  (g : string) :
  (if (0 <? length l)%nat
   then match l !! (length l - 1)%nat with
        | Some latestReview => ret (f latestReview)
        | None => throw "TypeError: Cannot read properties of undefined"
        end
   else ret g) =
  @ret S _ (match last l with Some latest => f latest | None => g end).
Proof.
  destruct l as [|e l] using rev_ind; [reflexivity|].
  rewrite length_app, last_snoc. simpl.
  replace (length l + 1 - 1)%nat with (length l) by lia.
  rewrite lookup_app_r, Nat.sub_diag by lia. simpl.
  destruct (0 <? length l + 1)%nat eqn:Hz; [reflexivity|].
  apply Nat.ltb_ge in Hz. lia.
Qed.

(** The runs of [handleReviewRequest] on a request that passes
    validation: the read of the history fails; or the inference call
    rejects; or the inference call resolves and the entry is sent to the
    session object. *)
Lemma handleReviewRequest_cases P E request b w out w' :
  Worker.req_body request = Some b ->
  truthy (Worker.rq_code b) = true ->
  truthy (Worker.rq_language b) = true ->
  Worker.handleReviewRequest P E request w = (out, w') ->
  let key := session_key P b w in
  let hist := session_history w key in
  let inputs := ai_inputs (user_prompt hist b) in
  let D1 := Worker.DoFetch key reviews_request in
  let A := Worker.AiRun Worker.MODEL inputs in
  (forall k, k <> key -> session_history w' k = session_history w k) /\
  ((exists err n op msg,
      storage_fault P n op = Some err /\ out = Throw msg /\
      new_events w w' = [D1] /\ session_history w' key = hist) \/
   (exists err,
      Worker.AI_run E (n_ai (Worker.ctr w)) Worker.MODEL inputs = Throw err /\
      out = Throw err /\
      new_events w w' = [D1; A] /\ session_history w' key = hist) \/
   (exists a D2,
      Worker.AI_run E (n_ai (Worker.ctr w)) Worker.MODEL inputs = Ok a /\
      new_events w w' = [D1; A; D2] /\ is_add_review D2 /\
      ((exists err n op msg,
          storage_fault P n op = Some err /\ out = Throw msg) \/
       (exists rid ts,
          out = Ok (mkResponse 200 Worker.corsHeaders
                      (JReviewResult key (review_text a) rid
                         (0 <? length hist)%nat ts)))))).
Proof.
  intros Hbody Hcode Hlang.
  unfold Worker.handleReviewRequest, Worker.request_json.
  rewrite Hbody. unfold bind at 1, ret at 1. rewrite Hcode, Hlang. simpl.
  unfold bind at 1.
  assert (Hkey : exists w0,
    (if truthy (Worker.rq_sessionId b)
     then ret (Worker.str (Worker.rq_sessionId b))
     else Worker.randomUUID P) w = (Ok (session_key P b w), w0) /\
    Worker.instances w0 = Worker.instances w /\
    Worker.storages w0 = Worker.storages w /\
    Worker.trace w0 = Worker.trace w /\
    n_ai (Worker.ctr w0) = n_ai (Worker.ctr w)).
  { unfold session_key. destruct (truthy (Worker.rq_sessionId b));
      eexists; (split; [reflexivity|]); auto. }
  destruct Hkey as (w0 & -> & Hi0 & Hs0 & Ht0 & Hai0).
  set (key := session_key P b w).
  change (ReviewSession.mkRequest "/reviews" "GET" None) with reviews_request.
  unfold bind at 1.
  destruct (Worker.session_fetch P key reviews_request w0) as [out1 w1] eqn:H1.
  apply session_fetch_reviews in H1 as (Hh1 & Ht1 & Hai1 & Hcase1).
  assert (Hh0 : forall k, session_history w0 k = session_history w k).
  { intros k. unfold session_history. by rewrite Hi0, Hs0. }
  rewrite Hh0 in Hcase1. rewrite Ht0 in Ht1.
  assert (Hh : forall k, session_history w1 k = session_history w k).
  { intros k. by rewrite Hh1, Hh0. }
  clear Hh1 Hh0 Hi0 Hs0 Ht0.
  destruct Hcase1 as [->|(err & n & op & Hf & ->)].
  - unfold json at 1. simpl. unfold bind at 1, ret at 1. unfold bind at 1, ret at 1.
    rewrite latest_prompt. unfold bind at 1, ret at 1.
    unfold bind at 1, Worker.AI at 1. rewrite Hai1, Hai0.
    fold (user_prompt (session_history w key) b).
    fold (ai_inputs (user_prompt (session_history w key) b)).
    destruct (Worker.AI_run E (n_ai (Worker.ctr w)) Worker.MODEL
                (ai_inputs (user_prompt (session_history w key) b)))
      as [a|err] eqn:Hai.
    + fold (review_text a). unfold bind at 1.
      match goal with
      | |- context [Worker.session_fetch P key ?rq ?w2] =>
          destruct (Worker.session_fetch P key rq w2) as [out2 w3] eqn:H2
      end.
      pose proof (session_fetch_other _ _ _ _ _ _ H2) as [Hother Ht3].
      simpl in Hother, Ht3. rewrite Ht1 in Ht3.
      assert (Hothers : forall k, k <> key ->
                session_history w3 k = session_history w k).
      { intros k Hk. rewrite Hother by assumption. apply Hh. }
      assert (Hev : new_events w w3 =
                [Worker.DoFetch key reviews_request;
                 Worker.AiRun Worker.MODEL
                   (ai_inputs (user_prompt (session_history w key) b));
                 Worker.DoFetch key
                   (ReviewSession.mkRequest "/add-review" "POST"
                      (Some (ReviewSession.mkAddReviewBody
                               (Worker.str (Worker.rq_code b))
                               (Worker.str (Worker.rq_language b))
                               (review_text a) (Worker.rq_context b))))]).
      { unfold new_events. rewrite Ht3, <- !app_assoc. apply drop_app_length. }
      apply session_fetch_add_review in H2
        as [(e & ->)|(err & n & op & Hf & ->)].
      * unfold json at 1. simpl. unfold bind at 1, ret at 1. unfold bind at 1.
        assert (Hid : exists rid w4,
          (if truthy (Some (id e)) then ret (Worker.str (Some (id e)))
           else Worker.randomUUID P) w3 = (Ok rid, w4) /\
          Worker.instances w4 = Worker.instances w3 /\
          Worker.storages w4 = Worker.storages w3 /\
          Worker.trace w4 = Worker.trace w3).
        { destruct (truthy (Some (id e))); eexists _, _;
            (split; [reflexivity|]); auto. }
        destruct Hid as (rid & w4 & -> & Hi4 & Hs4 & Ht4).
        unfold bind, ret, Worker.Date_now. intros [= <- <-].
        split.
        { intros k Hk. transitivity (session_history w3 k); [|by apply Hothers].
          unfold session_history. simpl. by rewrite Hi4, Hs4. }
        right. right. eexists _, _. split; [reflexivity|].
        split; [unfold new_events in *; simpl; rewrite Ht4; exact Hev|].
        split; [reflexivity|right; eauto].
      * unfold json at 1. simpl. unfold bind, throw. intros [= <- <-].
        split; [exact Hothers|].
        right. right. eexists _, _. split; [reflexivity|].
        split; [exact Hev|]. split; [reflexivity|]. left. eauto 8.
    + intros [= <- <-]. split.
      { intros k _. unfold session_history. simpl. apply Hh. }
      right. left. exists err. split; [reflexivity|]. split; [reflexivity|].
      split.
      * unfold new_events. simpl. rewrite Ht1, <- !app_assoc.
        apply drop_app_length.
      * unfold session_history. simpl. apply Hh.
  - unfold json at 1. simpl. unfold bind, throw. intros [= <- <-].
    split; [intros k _; apply Hh|].
    left. exists err, n, op. eexists. split; [assumption|].
    split; [reflexivity|]. split; [|apply Hh].
    unfold new_events. rewrite Ht1. apply drop_app_length.
Qed.

Lemma fetch_route_review P E request w :
  Worker.req_method request = "POST" ->
  Worker.req_path request = "/api/review" ->
  Worker.fetch P E request w =
  try_catch (Worker.handleReviewRequest P E request) internal_error w.
Proof. intros Hm Hp. unfold Worker.fetch. rewrite Hm, Hp. reflexivity. Qed.

Lemma fetch_route_list P E request w :
  Worker.req_method request = "GET" ->
  Worker.req_path request = "/api/session/reviews" ->
  Worker.fetch P E request w =
  try_catch (Worker.handleGetReviews P request) internal_error w.
Proof. intros Hm Hp. unfold Worker.fetch. rewrite Hm, Hp. reflexivity. Qed.

Lemma fetch_route_clear P E request w :
  Worker.req_method request = "POST" ->
  Worker.req_path request = "/api/session/clear" ->
  Worker.fetch P E request w =
  try_catch (Worker.handleClearSession P request) internal_error w.
Proof. intros Hm Hp. unfold Worker.fetch. rewrite Hm, Hp. reflexivity. Qed.

(** A submission whose code or language is falsy is answered with the
    validation error before anything else happens. *)
Lemma submit_rejected P E request b w :
  Worker.req_method request = "POST" ->
  Worker.req_path request = "/api/review" ->
  Worker.req_body request = Some b ->
  truthy (Worker.rq_code b) && truthy (Worker.rq_language b) = false ->
  Worker.fetch P E request w =
  (Ok (mkResponse 400 Worker.corsHeaders
         (JError "Missing required fields: code and language" None)), w).
Proof.
  intros Hm Hp Hb Hv. rewrite fetch_route_review by assumption.
  unfold try_catch, Worker.handleReviewRequest, Worker.request_json.
  rewrite Hb. unfold bind at 1, ret at 1.
  apply andb_false_iff in Hv as [-> | ->]; [reflexivity|].
  rewrite orb_true_r. reflexivity.
Qed.

Lemma new_events_nil w : new_events w w = [].
Proof. unfold new_events. apply drop_all. Qed.

Lemma string_app_cons a (s1 s2 : string) :
  String a s1 +:+ s2 = String a (s1 +:+ s2).
Proof. reflexivity. Qed.

Lemma string_length_app (s1 s2 : string) :
  String.length (s1 +:+ s2) = (String.length s1 + String.length s2)%nat.
Proof.
  induction s1 as [|a s1 IH]; [reflexivity|].
  rewrite string_app_cons. cbn [String.length]. by rewrite IH.
Qed.


Lemma string_app_inv_tail (t : string) : forall s1 s2 : string,
  s1 +:+ t = s2 +:+ t -> s1 = s2.
Proof.
  induction s1 as [|a s1 IH]; intros [|b s2]; intros H.
  - reflexivity.
  - apply (f_equal String.length) in H.
    rewrite !string_length_app in H. cbn [String.length] in H. lia.
  - apply (f_equal String.length) in H.
    rewrite !string_length_app in H. cbn [String.length] in H. lia.
  - rewrite !string_app_cons in H. injection H as -> H. f_equal. by apply IH.
Qed.

(** The follow-up prompt is its fixed head, the previous review, and a
    tail made of the new code and the language. *)
Lemma createFollowUpPrompt_parts (p c l : string) :
  Prompts.createFollowUpPrompt p c l = followup_head +:+ p +:+ followup_tail c l.
Proof. reflexivity. Qed.

Lemma createFollowUpPrompt_inj (p p' c l : string) :
  Prompts.createFollowUpPrompt p c l = Prompts.createFollowUpPrompt p' c l ->
  p = p'.
Proof.
  unfold Prompts.createFollowUpPrompt. intros H.
  repeat apply String.app_inj in H.
  by apply string_app_inv_tail in H.
Qed.

(** C3. A submission that passes validation is a follow-up exactly when
    the review list of its session is non-empty when the request
    arrives: the flag of the response says so, and the one message the
    inference service gets from the user is then the follow-up prompt
    built from the review text of the last entry of the list and from
    nothing else of the history (the initial prompt when the list is
    empty).  That prompt embeds the review text verbatim, between the
    fixed head and a tail made of the new code and the language, and it
    is the follow-up prompt of no other review text: not of an earlier
    entry's, not of a combination.  A response is only sent after the
    service was asked, and one is sent when neither storage nor the
    service fails. *)
Theorem followup_iff_history_nonempty P E request b w out w' :
  Worker.req_body request = Some b ->
  truthy (Worker.rq_code b) = true ->
  truthy (Worker.rq_language b) = true ->
  Worker.handleReviewRequest P E request w = (out, w') ->
  let hist := session_history w (session_key P b w) in
  let code := Worker.str (Worker.rq_code b) in
  let language := Worker.str (Worker.rq_language b) in
  (forall r, out = Ok r ->
     exists rv rid flag ts,
       body r = JReviewResult (session_key P b w) rv rid flag ts /\
       (flag = true <-> hist <> []) /\
       exists inputs, In (Worker.AiRun Worker.MODEL inputs) (new_events w w')) /\
  (forall model inputs,
     In (Worker.AiRun model inputs) (new_events w w') ->
     exists prompt,
       Worker.messages inputs =
         [Worker.mkMessage "system" Prompts.SYSTEM_PROMPT;
          Worker.mkMessage "user" prompt] /\
       (hist <> [] ->
        exists latest,
          hist !! (length hist - 1)%nat = Some latest /\
          prompt = Prompts.createFollowUpPrompt (review latest) code language /\
          prompt = followup_head +:+ review latest +:+ followup_tail code language /\
          forall text,
            Prompts.createFollowUpPrompt text code language = prompt ->
            text = review latest) /\
       (hist = [] ->
        prompt = Prompts.createCodeReviewPrompt code language
                   (Worker.rq_context b))) /\
  ((forall n op, storage_fault P n op = None) ->
   (forall n model inputs, exists a, Worker.AI_run E n model inputs = Ok a) ->
   exists r, out = Ok r).
Proof.
  intros Hb Hc Hl Hrun hist code language.
  pose proof (handleReviewRequest_cases _ _ _ _ _ _ _ Hb Hc Hl Hrun)
    as (_ & Hcases).
  fold hist in Hcases. clearbody hist.
  assert (Hprompt : exists prompt,
    Worker.messages (ai_inputs (user_prompt hist b)) =
      [Worker.mkMessage "system" Prompts.SYSTEM_PROMPT;
       Worker.mkMessage "user" prompt] /\
    (hist <> [] ->
     exists latest,
       hist !! (length hist - 1)%nat = Some latest /\
       prompt = Prompts.createFollowUpPrompt (review latest) code language /\
       prompt = followup_head +:+ review latest +:+ followup_tail code language /\
       forall text,
         Prompts.createFollowUpPrompt text code language = prompt ->
         text = review latest) /\
    (hist = [] ->
     prompt = Prompts.createCodeReviewPrompt code language
                (Worker.rq_context b))).
  { exists (user_prompt hist b). split; [reflexivity|].
    unfold user_prompt. destruct hist as [|e l _] using rev_ind.
    - split; [congruence|reflexivity].
    - rewrite last_snoc. split; [|intros H; by destruct l].
      intros _. exists e. split.
      { rewrite length_app. simpl.
        replace (length l + 1 - 1)%nat with (length l) by lia.
        by rewrite lookup_app_r, Nat.sub_diag by lia. }
      split; [reflexivity|].
      split; [apply createFollowUpPrompt_parts|].
      intros text Htext. by apply createFollowUpPrompt_inj in Htext. }
  assert (Hflag : (0 <? length hist)%nat = true <-> hist <> []).
  { destruct hist; (split; [|intros H]); try discriminate;
      [congruence|reflexivity]. }
  destruct Hcases as
    [(err & n & op & msg & Hf & -> & Hev & _)
    |[(err & Hai & -> & Hev & _)
     |(a & D2 & Hai & Hev & Hadd & Hout)]]; rewrite Hev.
  - split; [discriminate|]. split.
    + intros model inputs [[=]|[]].
    + intros HP _. rewrite HP in Hf. discriminate.
  - split; [discriminate|]. split.
    + intros model inputs [[=]|[[= <- <-]|[]]]. exact Hprompt.
    + intros _ HE. destruct (HE (n_ai (Worker.ctr w)) Worker.MODEL
                               (ai_inputs (user_prompt hist b))) as [a Ha].
      congruence.
  - split; [|split].
    + intros r Hr.
      destruct Hout as [(err & n & op & msg & _ & Hout)|(rid & ts & Hout)];
        rewrite Hout in Hr; [discriminate|]. injection Hr as <-.
      simpl. eexists _, _, _, _. split; [reflexivity|]. split; [exact Hflag|].
      eexists. right. left. reflexivity.
    + intros model inputs [[=]|[[= <- <-]|[Heq|[]]]]; [exact Hprompt|].
      subst D2. destruct Hadd.
    + intros HP _.
      destruct Hout as [(err & n & op & msg & Hf & _)|(rid & ts & ->)];
        [rewrite HP in Hf; discriminate|eauto].
Qed.

Lemma followup_iff_history_nonempty_witness :
  exists r w' rv rid ts,
    Worker.handleReviewRequest Ex.P_ok Ex.E_ok
      (Ex.submit (Some "x = 3") (Some "python") (Some "s1")) Ex.w1
      = (Ok r, w') /\
    body r = JReviewResult "s1" rv rid true ts.
Proof.
  destruct (Worker.handleReviewRequest Ex.P_ok Ex.E_ok
              (Ex.submit (Some "x = 3") (Some "python") (Some "s1")) Ex.w1)
    as [out w'] eqn:Hrun.
  destruct (followup_iff_history_nonempty Ex.P_ok Ex.E_ok
              (Ex.submit (Some "x = 3") (Some "python") (Some "s1"))
              (Worker.mkReviewRequest (Some "x = 3") (Some "python") None
                 (Some "s1"))
              Ex.w1 out w' eq_refl eq_refl eq_refl Hrun) as (Hflag & _ & Hok).
  destruct (Hok (fun _ _ => eq_refl) (fun _ _ _ => ex_intro _ _ eq_refl))
    as [r ->].
  destruct (Hflag r eq_refl) as (rv & rid & flag & ts & Hbody & Hiff & _).
  exists r, w', rv, rid, ts. split; [reflexivity|].
  assert (Htrue : flag = true) by (apply Hiff; vm_compute; discriminate).
  rewrite Htrue in Hbody. exact Hbody.
Defined.

(** C5. When the inference call a submission makes rejects, the caller
    gets the generic error response (status 500, "Internal Server
    Error", with the error's text as message), no entry is sent to the
    session object, and the review list of every session is what it was
    before the request. *)
Theorem inference_failure_appends_nothing P E request w out w' model inputs err :
  Worker.req_method request = "POST" ->
  Worker.req_path request = "/api/review" ->
  Worker.fetch P E request w = (out, w') ->
  In (Worker.AiRun model inputs) (new_events w w') ->
  Worker.AI_run E (n_ai (Worker.ctr w)) model inputs = Throw err ->
  out = Ok (mkResponse 500 Worker.corsHeaders
              (JError "Internal Server Error" (Some err))) /\
  (forall k, session_history w' k = session_history w k) /\
  (forall ev, In ev (new_events w w') -> ~ is_add_review ev).
Proof.
  intros Hm Hp Hrun Hin Hfail.
  destruct (Worker.req_body request) as [b|] eqn:Hb.
  - destruct (truthy (Worker.rq_code b) && truthy (Worker.rq_language b))
      eqn:Hv.
    + apply andb_true_iff in Hv as [Hc Hl].
      rewrite fetch_route_review in Hrun by assumption.
      unfold try_catch in Hrun.
      destruct (Worker.handleReviewRequest P E request w) as [outh wh] eqn:Hh.
      assert (w' = wh) as -> by (destruct outh; by injection Hrun).
      pose proof (handleReviewRequest_cases _ _ _ _ _ _ _ Hb Hc Hl Hh)
        as (Hothers & Hcases).
      destruct Hcases as
        [(e & n & op & msg & _ & _ & Hev & _)
        |[(e & Hai & -> & Hev & Hkey)
         |(a & D2 & Hai & Hev & Hadd & _)]]; rewrite Hev in *.
      * destruct Hin as [[=]|[]].
      * destruct Hin as [[=]|[[= <- <-]|[]]].
        assert (e = err) as -> by congruence.
        split; [by injection Hrun|]. split.
        { intros k. destruct (decide (k = session_key P b w)) as [->|Hne];
            [exact Hkey|by apply Hothers]. }
        intros ev [<-|[<-|[]]]; simpl; [discriminate|tauto].
      * destruct Hin as [[=]|[[= <- <-]|[Heq|[]]]]; [congruence|].
        subst D2. destruct Hadd.
    + rewrite (submit_rejected _ _ _ _ _ Hm Hp Hb Hv) in Hrun.
      injection Hrun as <- <-. rewrite new_events_nil in Hin. destruct Hin.
  - rewrite fetch_route_review in Hrun by assumption.
    unfold try_catch, Worker.handleReviewRequest, Worker.request_json in Hrun.
    rewrite Hb in Hrun. injection Hrun as <- <-.
    rewrite new_events_nil in Hin. destruct Hin.
Qed.

Lemma inference_failure_appends_nothing_witness :
  exists w',
    Worker.fetch Ex.P_ok Ex.E_down
      (Ex.submit (Some "x = 3") (Some "python") (Some "s1")) Ex.w1
    = (Ok (mkResponse 500 Worker.corsHeaders
             (JError "Internal Server Error" (Some "inference failed"))), w') /\
    session_history w' "s1" = [Ex.e1; Ex.e2].
Proof.
  assert (Hrun : exists out w',
    Worker.fetch Ex.P_ok Ex.E_down
      (Ex.submit (Some "x = 3") (Some "python") (Some "s1")) Ex.w1
    = (out, w') /\
    In (Worker.AiRun Worker.MODEL
          (ai_inputs (Prompts.createFollowUpPrompt "Still fine." "x = 3"
                        "python")))
       (new_events Ex.w1 w')).
  { eexists _, _. split; [vm_compute; reflexivity|].
    vm_compute. right. left. reflexivity. }
  destruct Hrun as (out & w' & Hrun & Hin).
  destruct (inference_failure_appends_nothing Ex.P_ok Ex.E_down
              (Ex.submit (Some "x = 3") (Some "python") (Some "s1")) Ex.w1
              out w' _ _ "inference failed" eq_refl eq_refl Hrun Hin eq_refl)
    as (-> & Hhist & _).
  exists w'. split; [exact Hrun|]. rewrite Hhist. reflexivity.
Defined.

(** C7. A request that lacks a required field (code or language on
    submit, sessionId on list or clear) is answered at once with the
    validation error, status 400; the worker calls neither a session
    object nor the inference service, and nothing changes: the world
    after the request is the world before it. *)
Theorem missing_fields_rejected P E request msg w :
  missing_fields request msg ->
  Worker.fetch P E request w =
  (Ok (mkResponse 400 Worker.corsHeaders (JError msg None)), w).
Proof.
  intros [rq b Hm Hp Hb Hmiss | rq Hm Hp Hq | rq b Hm Hp Hb Hs].
  - apply (submit_rejected _ _ _ b); try assumption.
    destruct Hmiss as [-> | ->]; [reflexivity|apply andb_false_r].
  - rewrite fetch_route_list by assumption.
    unfold try_catch, Worker.handleGetReviews. rewrite Hq. reflexivity.
  - rewrite fetch_route_clear by assumption.
    unfold try_catch, Worker.handleClearSession, Worker.request_json.
    rewrite Hb. unfold bind at 1, ret at 1. rewrite Hs. reflexivity.
Qed.

Lemma missing_fields_rejected_witness :
  Worker.fetch Ex.P_ok Ex.E_ok (Ex.submit (Some "x = 3") None (Some "s1")) Ex.w1
  = (Ok (mkResponse 400 Worker.corsHeaders
           (JError "Missing required fields: code and language" None)),
     Ex.w1).
Proof.
  apply missing_fields_rejected.
  eapply missing_submit; [reflexivity|reflexivity|reflexivity|].
  right. reflexivity.
Defined.

(** C10. A submission whose code or language is present but is the
    empty string is treated as if the field were missing: the same
    validation error, status 400, and the world is unchanged, so no
    session object was called. *)
Theorem empty_fields_rejected P E request b w :
  Worker.req_method request = "POST" ->
  Worker.req_path request = "/api/review" ->
  Worker.req_body request = Some b ->
  Worker.rq_code b = Some "" \/ Worker.rq_language b = Some "" ->
  Worker.fetch P E request w =
  (Ok (mkResponse 400 Worker.corsHeaders
         (JError "Missing required fields: code and language" None)), w).
Proof.
  intros Hm Hp Hb Hempty. apply (submit_rejected _ _ _ b); try assumption.
  destruct Hempty as [-> | ->]; [reflexivity|apply andb_false_r].
Qed.

Lemma empty_fields_rejected_witness :
  Worker.fetch Ex.P_ok Ex.E_ok
    (Ex.submit (Some "x = 3") (Some "") (Some "s1")) Ex.w1
  = (Ok (mkResponse 400 Worker.corsHeaders
           (JError "Missing required fields: code and language" None)),
     Ex.w1).
Proof.
  eapply empty_fields_rejected; [reflexivity|reflexivity|reflexivity|].
  right. reflexivity.
Defined.

(** ** Further properties of the session store *)

(** X1. The store only appends: an operation other than [clearReviews],
    whether it returns or throws, leaves the session's list as it was or
    longer by exactly one entry, and the latter only for [addReview],
    the entry carrying the call's arguments. *)
Theorem store_only_appends P op d out d' :
  op <> OpClearReviews ->
  run_op P op d = (out, d') ->
  history d' = history d \/
  exists c l r x e,
    op = OpAddReview c l r x /\ history d' = history d ++ [e] /\
    code e = c /\ language e = l /\ review e = r /\ context e = x.
Proof.
  intros Hop. destruct d as [st sto k].
  destruct op; try congruence; unfold run_op, history; js_unfold; simpl;
    repeat match goal with
    | |- context [storage_fault P ?n ?o] => destruct (storage_fault P n o)
    | |- context [match sto with _ => _ end] => destruct sto; js_unfold; simpl
    | |- context [if ?b then _ else _] => destruct b
    end;
    intros [= <- <-]; simpl; eauto 12.
Qed.

Lemma store_only_appends_witness :
  let op := OpAddReview "x = 2" "python" "ok" None in
  let run := run_op Ex.P_ok op Ex.d_stored in
  history (snd run) = history Ex.d_stored \/
  exists c l r x e,
    op = OpAddReview c l r x /\ history (snd run) = history Ex.d_stored ++ [e] /\
    code e = c /\ language e = l /\ review e = r /\ context e = x.
Proof.
  intros op run.
  apply (store_only_appends Ex.P_ok op Ex.d_stored (fst run) (snd run));
    [discriminate|apply surjective_pairing].
Defined.

(** X2. The creation time is written once.  On a session with persisted
    state, every operation, whether it returns or throws, leaves a
    persisted state with the same createdAt, and one that returns leaves
    the same createdAt in memory; for [clearReviews], which does not
    load, this needs the state in memory to carry that createdAt
    already. *)
Theorem createdAt_kept P op d st out d' :
  ReviewSession.storage d = Some st ->
  (op = OpClearReviews ->
   createdAt (ReviewSession.this_state d) = createdAt st) ->
  run_op P op d = (out, d') ->
  (exists st', ReviewSession.storage d' = Some st' /\
               createdAt st' = createdAt st) /\
  (out = Ok tt -> createdAt (ReviewSession.this_state d') = createdAt st).
Proof.
  destruct d as [s sto k]. simpl. intros -> Hclear.
  destruct op; unfold run_op; js_unfold; simpl;
    try specialize (Hclear eq_refl);
    repeat match goal with
    | |- context [storage_fault P ?n ?o] => destruct (storage_fault P n o)
    | |- context [if ?b then _ else _] => destruct b
    end;
    intros [= <- <-]; simpl; (split; [eauto|]); try discriminate; auto.
Qed.

Lemma createdAt_kept_witness :
  let run := run_op Ex.P_ok OpGetReviews Ex.d_stored in
  (exists st', ReviewSession.storage (snd run) = Some st' /\
               createdAt st' = createdAt Ex.st1) /\
  (fst run = Ok tt ->
   createdAt (ReviewSession.this_state (snd run)) = createdAt Ex.st1).
Proof.
  intros run.
  apply (createdAt_kept Ex.P_ok OpGetReviews Ex.d_stored Ex.st1 (fst run)
           (snd run)); [reflexivity|discriminate|apply surjective_pairing].
Defined.

(** X3. A save that fails leaves the new entry in memory.  When
    [addReview] throws after a load that succeeded, storage is what it
    was, but the list in memory is the session's list followed by the
    entry.  With persisted state the next load discards it; without, the
    entry belongs to the list from then on, and a later [getReviews] on
    the same object returns it and persists it. *)
Theorem failed_save_keeps_entry_in_memory P c l r x d err d' :
  ReviewSession.addReview P c l r x d = (Throw err, d') ->
  storage_fault P (n_io (ReviewSession.ctr d)) Get = None ->
  exists e,
    code e = c /\ language e = l /\ review e = r /\ context e = x /\
    ReviewSession.storage d' = ReviewSession.storage d /\
    reviews (ReviewSession.this_state d') = history d ++ [e] /\
    (ReviewSession.storage d <> None -> history d' = history d) /\
    (ReviewSession.storage d = None ->
     history d' = history d ++ [e] /\
     forall lst d2,
       ReviewSession.getReviews P d' = (Ok lst, d2) ->
       lst = history d ++ [e] /\
       option_map reviews (ReviewSession.storage d2) = Some (history d ++ [e])).
Proof.
  intros Hadd Hget.
  assert (Hshape : exists e,
    code e = c /\ language e = l /\ review e = r /\ context e = x /\
    ReviewSession.storage d' = ReviewSession.storage d /\
    reviews (ReviewSession.this_state d') = history d ++ [e]).
  { revert Hadd Hget. destruct d as [st sto k]. unfold history. js_unfold.
    intros Hadd Hget. rewrite Hget in Hadd.
    destruct sto as [s|]; js_unfold;
      destruct (storage_fault P (S (n_io k)) Put); try discriminate;
      injection Hadd as <- <-; simpl;
      eexists (mkReviewEntry _ _ c l r x); repeat split. }
  destruct Hshape as (e & Hc & Hl & Hr & Hx & Hsto & Hmem).
  exists e. repeat (split; [assumption|]). split.
  - unfold history. rewrite Hsto. by destruct (ReviewSession.storage d).
  - intros Hnone.
    assert (Hh : history d' = history d ++ [e]).
    { unfold history at 1. by rewrite Hsto, Hnone. }
    split; [exact Hh|]. intros lst d2 Hg.
    pose proof (getReviews_history _ _ _ _ Hg) as (Hh2 & [[= ->]|Hthrow] & _).
    + split; [exact Hh|]. rewrite <- Hh, <- Hh2. clear -Hg.
      destruct d' as [st sto k]. revert Hg. unfold history. js_unfold.
      destruct (storage_fault P (n_io k) Get); [discriminate|].
      destruct sto; js_unfold;
        destruct (storage_fault P (S (n_io k)) Put); try discriminate;
        intros H; simplify_eq; reflexivity.
    + destruct Hthrow as (? & ? & ? & [=] & _).
Qed.

Lemma failed_save_keeps_entry_in_memory_witness :
  exists e d',
    ReviewSession.addReview Ex.P_save_fails "x = 1" "python" "ok" None
      Ex.d_fresh = (Throw "save failed", d') /\
    ReviewSession.storage d' = None /\
    reviews (ReviewSession.this_state d') = [e] /\ review e = "ok".
Proof.
  destruct (ReviewSession.addReview Ex.P_save_fails "x = 1" "python" "ok" None
              Ex.d_fresh) as [out d'] eqn:Hrun.
  assert (out = Throw "save failed") as -> by (by injection Hrun as <- _).
  destruct (failed_save_keeps_entry_in_memory _ _ _ _ _ _ _ _ Hrun eq_refl)
    as (e & _ & _ & Hr & _ & Hs & Hm & _).
  exists e, d'. split; [reflexivity|]. split; [exact Hs|].
  split; [exact Hm|exact Hr].
Defined.

Lemma addReview_call_uuid P c d e d' :
  addReview_call P c d = (Ok e, d') ->
  id e = uuid P (n_uuid (ReviewSession.ctr d)) /\
  n_uuid (ReviewSession.ctr d') = S (n_uuid (ReviewSession.ctr d)).
Proof.
  unfold addReview_call. destruct d as [st sto k].
  destruct (cold c); unfold ReviewSession.restart, ReviewSession.constructor;
    js_unfold; simpl;
    repeat match goal with
    | |- context [storage_fault P ?n ?o] => destruct (storage_fault P n o)
    | |- context [match sto with _ => _ end] => destruct sto; js_unfold; simpl
    end;
    try discriminate; intros [= <- <-]; auto.
Qed.

Lemma addReviews_ids P calls : forall d es d',
  addReviews P calls d = (Ok es, d') ->
  id <$> es = uuid P <$> seq (n_uuid (ReviewSession.ctr d)) (length calls).
Proof.
  induction calls as [|c cs IH]; intros d es d'; simpl.
  - unfold ret. by intros [= <- <-].
  - unfold bind, ret.
    destruct (addReview_call P c d) as [[e|err] d1] eqn:H1; [|discriminate].
    destruct (addReviews P cs d1) as [[es1|err] d2] eqn:H2; [|discriminate].
    intros [= <- <-].
    apply addReview_call_uuid in H1 as [Hid Hn].
    apply IH in H2. rewrite Hn in H2.
    rewrite fmap_cons, Hid, H2. reflexivity.
Qed.

Lemma find_by_id (l : list ReviewEntry) (e : ReviewEntry) :
  NoDup (id <$> l) -> e ∈ l ->
  find (fun r => bool_decide (id r = id e)) l = Some e.
Proof.
  induction l as [|a l IH]; simpl; [by intros _ ?%elem_of_nil|].
  rewrite NoDup_cons. intros [Hnotin Hnd] [->|Hin]%elem_of_cons.
  - by rewrite bool_decide_eq_true_2.
  - rewrite bool_decide_eq_false_2; [by apply IH|].
    intros Heq. apply Hnotin. rewrite Heq. by apply list_elem_of_fmap_2.
Qed.

Lemma getReview_find P (i : string) d :
  storage_fault P (n_io (ReviewSession.ctr d)) Get = None ->
  exists d',
    ReviewSession.getReview P i d
    = (Ok (find (fun r => bool_decide (id r = i)) (history d)), d').
Proof.
  intros Hget. destruct d as [st sto k]. unfold history. js_unfold.
  simpl in Hget. rewrite Hget. destruct sto; js_unfold; eauto.
Qed.

(** X4. Identifiers are as unique as the platform's.  When
    [crypto.randomUUID] never repeats a value, the entries a run of
    [addReview] calls appends to an empty session have pairwise distinct
    ids, and [getReview] with the id of any of them returns exactly that
    entry. *)
Theorem entries_found_by_id P calls d es d' :
  (forall m n, uuid P m = uuid P n -> m = n) ->
  history d = [] ->
  addReviews P calls d = (Ok es, d') ->
  NoDup (id <$> es) /\
  forall e, e ∈ es ->
    storage_fault P (n_io (ReviewSession.ctr d')) Get = None ->
    exists d'', ReviewSession.getReview P (id e) d' = (Ok (Some e), d'').
Proof.
  intros Hinj Hempty Hrun.
  assert (Hnd : NoDup (id <$> es)).
  { rewrite (addReviews_ids _ _ _ _ _ Hrun).
    apply NoDup_fmap_2; [exact Hinj|apply NoDup_seq]. }
  split; [exact Hnd|]. intros e He Hget.
  apply addReviews_history in Hrun as (Hh & _ & _); [|by right].
  rewrite Hempty in Hh. simpl in Hh.
  destruct (getReview_find P (id e) d' Hget) as (d'' & Hfind).
  exists d''. rewrite Hfind, Hh. by rewrite find_by_id.
Qed.

Lemma tally_inj m : forall n, Ex.tally m = Ex.tally n -> m = n.
Proof.
  induction m as [|m IH]; intros [|n]; simpl; try discriminate; [done|].
  intros [= H]. f_equal. by apply IH.
Qed.

Lemma entries_found_by_id_witness :
  let run := addReviews Ex.P_unique [Ex.call1; Ex.call2] Ex.d_fresh in
  exists es d', run = (Ok es, d') /\ NoDup (id <$> es).
Proof.
  intros run.
  destruct (addReviews_total Ex.P_unique [Ex.call1; Ex.call2]
              (fun _ _ => eq_refl) Ex.d_fresh) as (es & d' & Hrun).
  exists es, d'. split; [exact Hrun|].
  exact (proj1 (entries_found_by_id Ex.P_unique [Ex.call1; Ex.call2]
                  Ex.d_fresh es d' tally_inj eq_refl Hrun)).
Defined.

(** X5. [getMetadata] is a read-only summary of the session: it never
    writes to storage, its reviewCount is the length of the list
    [getReviews] returns for the same object, and its createdAt is the
    one of the persisted state when there is one. *)
Theorem getMetadata_summary P d m d1 :
  ReviewSession.getMetadata P d = (Ok m, d1) ->
  ReviewSession.storage d1 = ReviewSession.storage d /\
  reviewCount m = length (history d) /\
  md_createdAt m = createdAt (loaded d) /\
  forall l d2,
    ReviewSession.getReviews P d = (Ok l, d2) -> reviewCount m = length l.
Proof.
  intros Hm.
  assert (H : ReviewSession.storage d1 = ReviewSession.storage d /\
              reviewCount m = length (history d) /\
              md_createdAt m = createdAt (loaded d)).
  { revert Hm. destruct d as [st sto k]. unfold history, loaded. js_unfold.
    destruct (storage_fault P (n_io k) Get); [discriminate|].
    destruct sto; js_unfold; intros [= <- <-]; auto. }
  destruct H as (Hs & Hc & Ht). repeat (split; [assumption|]).
  intros l d2 Hg.
  apply getReviews_history in Hg as (_ & [[= ->]|(? & ? & ? & [=] & _)] & _).
  exact Hc.
Qed.

Lemma getMetadata_summary_witness :
  exists m d1,
    ReviewSession.getMetadata Ex.P_ok
      (ReviewSession.constructor Ex.P_ok (Some Ex.st2) Ex.c0) = (Ok m, d1) /\
    reviewCount m = 2%nat /\ md_createdAt m = 1000.
Proof.
  destruct (ReviewSession.getMetadata Ex.P_ok
              (ReviewSession.constructor Ex.P_ok (Some Ex.st2) Ex.c0))
    as [out d1] eqn:Hrun.
  assert (exists m, out = Ok m) as [m ->]
    by (injection Hrun as <- _; eexists; reflexivity).
  destruct (getMetadata_summary _ _ _ _ Hrun) as (_ & Hc & Ht & _).
  exists m, d1. split; [reflexivity|]. split; [exact Hc|exact Ht].
Defined.

(** X6. The session object answers only four (path, method) pairs.  Any
    other request, a served path with another method included, gets
    404 'Not Found', and the object is left exactly as it was: no load,
    no save, no clock reading. *)
Theorem fetch_unrouted_not_found P request d :
  ~ routed request ->
  ReviewSession.fetch P request d = (Ok ReviewSession.not_found, d).
Proof.
  intros Hnot. unfold ReviewSession.fetch, try_catch, routed in *.
  repeat case_bool_decide; try reflexivity; exfalso; apply Hnot; auto 10.
Qed.

Lemma fetch_unrouted_not_found_witness :
  ReviewSession.fetch Ex.P_ok (ReviewSession.mkRequest "/clear" "GET" None)
    Ex.d_stored
  = (Ok ReviewSession.not_found, Ex.d_stored).
Proof.
  apply fetch_unrouted_not_found.
  intros [[H _]|[[H _]|[[H _]|[_ H]]]]; discriminate H.
Defined.

(** X7. The session object's [fetch] never throws: it always answers.
    The answer is a 200, the 404, or a 500 whose text is 'Error: '
    followed by the error of a storage operation that rejected or of a
    body that did not parse.  A 200 on a path other than /metadata is
    only sent after the state was saved: storage then holds exactly the
    state in memory. *)
Theorem session_object_answers P request d :
  exists r d',
    ReviewSession.fetch P request d = (Ok r, d') /\
    (status r = 200 \/ r = ReviewSession.not_found \/
     (status r = 500 /\
      exists err,
        body r = Text ("Error: " +:+ err) /\
        ((exists n op, storage_fault P n op = Some err) \/
         ReviewSession.req_body request = None))) /\
    (status r = 200 ->
     ReviewSession.req_path request = "/metadata" \/
     ReviewSession.storage d' = Some (ReviewSession.this_state d')).
Proof.
  destruct d as [st sto k].
  unfold ReviewSession.fetch, try_catch, ReviewSession.request_json.
  repeat case_bool_decide; js_unfold;
    repeat match goal with
    | |- context [match ReviewSession.req_body request with _ => _ end] =>
        destruct (ReviewSession.req_body request) eqn:?; js_unfold
    | |- context [storage_fault P ?n ?o] =>
        destruct (storage_fault P n o) eqn:?
    | |- context [match sto with _ => _ end] => destruct sto; js_unfold
    end;
    eexists _, _; (split; [reflexivity|]); simpl;
    (split; [|first [discriminate | intros _; auto]]);
    first [ by left | by (right; left) | right; right; eauto 10 ].
Qed.

(** ** Further properties of the router *)

(** Storage is never emptied: once a key has persisted state it keeps
    some. *)
Lemma fetch_storage_mono P request d out d' :
  ReviewSession.fetch P request d = (out, d') ->
  ReviewSession.storage d' = None -> ReviewSession.storage d = None.
Proof.
  destruct d as [st sto k].
  unfold ReviewSession.fetch, try_catch, ReviewSession.request_json.
  repeat case_bool_decide; js_unfold;
    repeat match goal with
    | |- context [match ReviewSession.req_body request with _ => _ end] =>
        destruct (ReviewSession.req_body request) eqn:?; js_unfold
    | |- context [storage_fault P ?n ?o] =>
        destruct (storage_fault P n o) eqn:?
    | |- context [match sto with _ => _ end] => destruct sto; js_unfold
    end;
    intros [= <- <-]; simpl; congruence.
Qed.

(** Every request but a routed clear leaves the object's list as it was
    or longer. *)
Lemma fetch_grows P request d out d' :
  ReviewSession.req_path request <> "/clear" ->
  ReviewSession.fetch P request d = (out, d') ->
  history d `prefix_of` history d'.
Proof.
  intros Hpath. destruct d as [st sto k].
  unfold ReviewSession.fetch, try_catch, ReviewSession.request_json, history.
  repeat case_bool_decide; try congruence; js_unfold;
    repeat match goal with
    | |- context [match ReviewSession.req_body request with _ => _ end] =>
        destruct (ReviewSession.req_body request) eqn:?; js_unfold
    | |- context [storage_fault P ?n ?o] =>
        destruct (storage_fault P n o) eqn:?
    | |- context [match sto with _ => _ end] => destruct sto; js_unfold
    end;
    intros [= <- <-]; simpl; first [reflexivity | by apply prefix_app_r].
Qed.

(** A request through the stub: the object's own [fetch] decides the
    outcome and the list of the session afterwards; the other sessions
    keep their object and their storage. *)
Lemma session_fetch_object P key request w out w' :
  Worker.session_fetch P key request w = (out, w') ->
  exists d',
    ReviewSession.fetch P request (Worker.object_of P key w) = (out, d') /\
    session_history w' key = history d' /\
    Worker.trace w' = Worker.trace w ++ [Worker.DoFetch key request] /\
    n_ai (Worker.ctr w') = n_ai (Worker.ctr w) /\
    (forall k, k <> key ->
       Worker.instances w' !! k = Worker.instances w !! k /\
       Worker.storages w' !! k = Worker.storages w !! k).
Proof.
  unfold Worker.session_fetch.
  destruct (ReviewSession.fetch P request (Worker.object_of P key w))
    as [r d'] eqn:Hf.
  intros [= <- <-]. exists d'. split; [reflexivity|].
  pose proof (fetch_storage_mono _ _ _ _ _ Hf) as Hmono.
  rewrite object_of_storage in Hmono.
  split; [|split; [reflexivity|split]].
  - unfold session_history, history. simpl. rewrite lookup_insert_eq.
    destruct (ReviewSession.storage d') as [v|].
    + by rewrite lookup_insert_eq.
    + by rewrite (Hmono eq_refl).
  - simpl. rewrite <- (object_of_ctr P key w). revert Hf.
    generalize (Worker.object_of P key w). intros [st sto k].
    unfold ReviewSession.fetch, try_catch, ReviewSession.request_json.
    repeat case_bool_decide; js_unfold;
      repeat match goal with
      | |- context [match ReviewSession.req_body request with _ => _ end] =>
          destruct (ReviewSession.req_body request) eqn:?; js_unfold
      | |- context [storage_fault P ?n ?o] =>
          destruct (storage_fault P n o) eqn:?
      | |- context [match sto with _ => _ end] => destruct sto; js_unfold
      end;
      intros [= <- <-]; reflexivity.
  - intros k Hne. simpl. rewrite lookup_insert_ne by congruence.
    split; [reflexivity|].
    destruct (ReviewSession.storage d') as [v|];
      [rewrite lookup_insert_ne by congruence|]; reflexivity.
Qed.

Lemma fetch_clear P d :
  ReviewSession.fetch P clear_request d =
  match ReviewSession.clearReviews P d with
  | (Ok _, d') => (Ok (mkResponse 200 [] JSuccess), d')
  | (Throw err, d') => (Ok (mkResponse 500 [] (Text ("Error: " +:+ err))), d')
  end.
Proof.
  unfold ReviewSession.fetch, clear_request, try_catch, bind, ret. simpl.
  destruct (ReviewSession.clearReviews P d) as [[[]|err] d']; reflexivity.
Qed.

Lemma history_unchanged_elsewhere (w w' : Worker.World) (k : string) :
  Worker.instances w' !! k = Worker.instances w !! k ->
  Worker.storages w' !! k = Worker.storages w !! k ->
  session_history w' k = session_history w k.
Proof. unfold session_history. by intros -> ->. Qed.

(** A submission that is answered: the inference service resolved, and
    the session object stored one entry built from the request and the
    review. *)
Lemma handleReviewRequest_success P E request b w r w' :
  Worker.req_body request = Some b ->
  truthy (Worker.rq_code b) = true ->
  truthy (Worker.rq_language b) = true ->
  Worker.handleReviewRequest P E request w = (Ok r, w') ->
  let key := session_key P b w in
  let hist := session_history w key in
  exists a e rid ts,
    Worker.AI_run E (n_ai (Worker.ctr w)) Worker.MODEL
      (ai_inputs (user_prompt hist b)) = Ok a /\
    r = mkResponse 200 Worker.corsHeaders
          (JReviewResult key (review_text a) rid (0 <? length hist)%nat ts) /\
    session_history w' key = hist ++ [e] /\
    code e = Worker.str (Worker.rq_code b) /\
    language e = Worker.str (Worker.rq_language b) /\
    review e = review_text a /\
    context e = Worker.rq_context b /\
    (id e <> "" -> rid = id e).
Proof.
  intros Hbody Hcode Hlang.
  unfold Worker.handleReviewRequest, Worker.request_json.
  rewrite Hbody. unfold bind at 1, ret at 1. rewrite Hcode, Hlang. simpl.
  unfold bind at 1.
  assert (Hkey : exists w0,
    (if truthy (Worker.rq_sessionId b)
     then ret (Worker.str (Worker.rq_sessionId b))
     else Worker.randomUUID P) w = (Ok (session_key P b w), w0) /\
    Worker.instances w0 = Worker.instances w /\
    Worker.storages w0 = Worker.storages w /\
    n_ai (Worker.ctr w0) = n_ai (Worker.ctr w)).
  { unfold session_key. destruct (truthy (Worker.rq_sessionId b));
      eexists; (split; [reflexivity|]); auto. }
  destruct Hkey as (w0 & -> & Hi0 & Hs0 & Hai0).
  set (key := session_key P b w).
  change (ReviewSession.mkRequest "/reviews" "GET" None) with reviews_request.
  unfold bind at 1.
  destruct (Worker.session_fetch P key reviews_request w0) as [out1 w1] eqn:H1.
  apply session_fetch_reviews in H1 as (Hh1 & _ & Hai1 & Hcase1).
  assert (Hh : forall k, session_history w1 k = session_history w k).
  { intros k. rewrite Hh1. unfold session_history. by rewrite Hi0, Hs0. }
  assert (Hh0 : session_history w0 key = session_history w key).
  { unfold session_history. by rewrite Hi0, Hs0. }
  rewrite Hh0 in Hcase1. clear Hh1 Hh0 Hi0 Hs0.
  destruct Hcase1 as [->|(err & n & op & Hf & ->)];
    [|unfold json at 1; simpl; unfold bind, throw; discriminate].
  unfold json at 1. simpl. unfold bind at 1, ret at 1. unfold bind at 1, ret at 1.
  rewrite latest_prompt. unfold bind at 1, ret at 1.
  unfold bind at 1, Worker.AI at 1. rewrite Hai1, Hai0.
  fold (user_prompt (session_history w key) b).
  fold (ai_inputs (user_prompt (session_history w key) b)).
  destruct (Worker.AI_run E (n_ai (Worker.ctr w)) Worker.MODEL
              (ai_inputs (user_prompt (session_history w key) b)))
    as [a|err] eqn:Hai; [|discriminate].
  fold (review_text a). unfold bind at 1.
  match goal with
  | |- context [Worker.session_fetch P key ?rq ?w2] =>
      destruct (Worker.session_fetch P key rq w2) as [out2 w3] eqn:H2
  end.
  apply session_fetch_object in H2 as (d' & Hf & Hh3 & _).
  rewrite fetch_add_review in Hf. simpl in Hf.
  match type of Hf with
  | context [ReviewSession.addReview P ?c ?l ?rv ?x ?d] =>
      destruct (ReviewSession.addReview P c l rv x d) as [[e|err] d1] eqn:Ha
  end; injection Hf as <- <-;
    [|unfold json at 1; simpl; unfold bind, throw; discriminate].
  apply addReview_appends in Ha as (Hhd & _ & Hc & Hl & Hr & Hx & _).
  rewrite object_of_history in Hhd.
  change (session_history _ key) with (session_history w1 key) in Hhd.
  rewrite Hh in Hhd.
  unfold json at 1. simpl. unfold bind at 1, ret at 1. unfold bind at 1.
  assert (Hid : exists rid w4,
    (if truthy (Some (id e)) then ret (Worker.str (Some (id e)))
     else Worker.randomUUID P) w3 = (Ok rid, w4) /\
    Worker.instances w4 = Worker.instances w3 /\
    Worker.storages w4 = Worker.storages w3 /\
    (id e <> "" -> rid = id e)).
  { unfold truthy. case_bool_decide; simpl; eexists _, _;
      (split; [reflexivity|]); auto. split; [reflexivity|]. split; [reflexivity|].
    congruence. }
  destruct Hid as (rid & w4 & -> & Hi4 & Hs4 & Hrid).
  unfold bind, ret, Worker.Date_now. intros [= <- <-].
  exists a, e, rid. eexists. split; [reflexivity|]. split; [reflexivity|].
  split; [|auto].
  unfold session_history. simpl. rewrite Hi4, Hs4.
  fold (session_history w3 key). by rewrite Hh3.
Qed.

Lemma clearReviews_outcome P d out d' :
  ReviewSession.clearReviews P d = (out, d') ->
  (out = Ok tt /\ history d' = []) \/
  (exists err n, storage_fault P n Put = Some err /\ out = Throw err).
Proof.
  destruct d as [st sto k]. unfold history. js_unfold.
  destruct (storage_fault P (n_io k) Put) eqn:Hput; intros [= <- <-]; eauto.
Qed.

(** Where a request to the worker ends up: answered without touching
    anything; or in one of the three handlers, past validation; or in the
    health check. *)
Lemma fetch_cases P E request w out w' :
  Worker.fetch P E request w = (out, w') ->
  w' = w \/
  (exists b,
     Worker.req_method request = "POST" /\
     Worker.req_path request = "/api/review" /\
     Worker.req_body request = Some b /\
     truthy (Worker.rq_code b) = true /\
     truthy (Worker.rq_language b) = true /\
     exists outh, Worker.handleReviewRequest P E request w = (outh, w')) \/
  (Worker.req_method request = "GET" /\
   Worker.req_path request = "/api/session/reviews" /\
   truthy (Worker.req_param request) = true /\
   exists o,
     Worker.session_fetch P (Worker.str (Worker.req_param request))
       reviews_request w = (o, w')) \/
  (exists b,
     Worker.req_method request = "POST" /\
     Worker.req_path request = "/api/session/clear" /\
     Worker.req_body request = Some b /\
     truthy (Worker.rq_sessionId b) = true /\
     exists o,
       Worker.session_fetch P (Worker.str (Worker.rq_sessionId b))
         clear_request w = (o, w')) \/
  (Worker.req_method request = "GET" /\
   Worker.req_path request = "/api/health" /\
   Worker.instances w' = Worker.instances w /\
   Worker.storages w' = Worker.storages w /\
   Worker.trace w' = Worker.trace w).
Proof.
  unfold Worker.fetch.
  case_bool_decide as Hopt; [unfold ret; intros [= <- <-]; by left|].
  unfold try_catch.
  case_bool_decide as Hp1; [case_bool_decide as Hm1|]; simpl.
  - (* submit *)
    destruct (Worker.req_body request) as [b|] eqn:Hb.
    + destruct (truthy (Worker.rq_code b) && truthy (Worker.rq_language b))
        eqn:Hv.
      * apply andb_true_iff in Hv as [Hc Hl].
        destruct (Worker.handleReviewRequest P E request w) as [outh wh] eqn:Hh.
        intros Hrun. assert (w' = wh) as -> by (destruct outh; by injection Hrun).
        right. left. exists b. eauto 10.
      * pose proof (submit_rejected P E request b w Hm1 Hp1 Hb Hv) as Hrej.
        rewrite fetch_route_review in Hrej by assumption.
        unfold try_catch in Hrej.
        destruct (Worker.handleReviewRequest P E request w) as [[r|e] wh];
          injection Hrej as _ ->; intros [= _ <-]; by left.
    + unfold Worker.handleReviewRequest, Worker.request_json. rewrite Hb.
      unfold bind, throw, ret. intros [= <- <-]. by left.
  - (* a method other than POST on /api/review *)
    rewrite Hp1. simpl.
    destruct (Worker.ASSETS E); unfold ret; intros [= <- <-]; by left.
  - case_bool_decide as Hp2; [case_bool_decide as Hm2|]; simpl.
    + (* list *)
      unfold Worker.handleGetReviews.
      destruct (truthy (Worker.req_param request)) eqn:Hq; simpl;
        [|unfold ret; intros [= <- <-]; by left].
      change (ReviewSession.mkRequest "/reviews" "GET" None) with reviews_request.
      unfold bind at 1.
      destruct (Worker.session_fetch P _ reviews_request w) as [[r|e] w1] eqn:Hs.
      * intros Hrun. assert (w' = w1) as ->.
        { revert Hrun. unfold bind, json, ret, throw.
          destruct (body r); intros [= <- <-]; reflexivity. }
        right. right. left. eauto 10.
      * intros [= <- <-]. right. right. left. eauto 10.
    + rewrite Hp2. simpl.
      destruct (Worker.ASSETS E); unfold ret; intros [= <- <-]; by left.
    + case_bool_decide as Hp3; [case_bool_decide as Hm3|]; simpl.
      * (* clear *)
        unfold Worker.handleClearSession, Worker.request_json.
        destruct (Worker.req_body request) as [b|] eqn:Hb;
          [|unfold bind, throw, ret; intros [= <- <-]; by left].
        unfold bind at 1, ret at 1.
        destruct (truthy (Worker.rq_sessionId b)) eqn:Hq; simpl;
          [|unfold ret; intros [= <- <-]; by left].
        change (ReviewSession.mkRequest "/clear" "POST" None) with clear_request.
        unfold bind at 1.
        destruct (Worker.session_fetch P _ clear_request w) as [[r|e] w1] eqn:Hs.
        -- intros Hrun. assert (w' = w1) as ->.
           { revert Hrun. unfold bind, json, ret, throw.
             destruct (body r); intros [= <- <-]; reflexivity. }
           right. right. right. left. exists b. eauto 10.
        -- intros [= <- <-]. right. right. right. left. exists b. eauto 10.
      * rewrite Hp3. simpl.
        destruct (Worker.ASSETS E); unfold ret; intros [= <- <-]; by left.
      * case_bool_decide as Hp4; [case_bool_decide as Hm4|]; simpl.
        -- unfold bind, ret, Worker.Date_now. intros [= <- <-].
           right. right. right. right. auto.
        -- destruct (Worker.ASSETS E); unfold ret; intros [= <- <-]; by left.
        -- destruct (Worker.ASSETS E); unfold ret; intros [= <- <-]; by left.
Qed.

(** X8. Sessions are isolated: whatever the request and however it
    ends, the review list of every session other than the one the
    request addresses is what it was before. *)
Theorem requests_touch_one_session P E request w out w' (k : string) :
  Worker.fetch P E request w = (out, w') ->
  k <> target P request w ->
  session_history w' k = session_history w k.
Proof.
  intros Hrun Hk.
  destruct (fetch_cases _ _ _ _ _ _ Hrun) as
    [->|[(b & Hm & Hp & Hb & Hc & Hl & outh & Hh)
        |[(Hm & Hp & Hq & o & Hs)
         |[(b & Hm & Hp & Hb & Hq & o & Hs)
          |(Hm & Hp & Hi & Hs & _)]]]].
  - reflexivity.
  - pose proof (handleReviewRequest_cases _ _ _ _ _ _ _ Hb Hc Hl Hh)
      as (Hothers & _).
    apply Hothers. revert Hk. unfold target.
    by rewrite bool_decide_eq_true_2, Hb by assumption.
  - apply session_fetch_reviews in Hs as (Hall & _). apply Hall.
  - apply session_fetch_object in Hs as (_ & _ & _ & _ & _ & Hothers).
    assert (Hne : k <> Worker.str (Worker.rq_sessionId b)).
    { revert Hk. unfold target. rewrite Hp, Hb.
      by rewrite !bool_decide_eq_false_2 by discriminate. }
    destruct (Hothers k Hne) as [Hi Hs].
    apply history_unchanged_elsewhere; assumption.
  - unfold session_history. by rewrite Hi, Hs.
Qed.

Lemma requests_touch_one_session_witness :
  let run := Worker.fetch Ex.P_ok Ex.E_ok
               (Ex.submit (Some "x = 3") (Some "python") (Some "s2")) Ex.w1 in
  session_history (snd run) "s1" = session_history Ex.w1 "s1".
Proof.
  intros run.
  apply (requests_touch_one_session Ex.P_ok Ex.E_ok
           (Ex.submit (Some "x = 3") (Some "python") (Some "s2")) Ex.w1
           (fst run) (snd run) "s1");
    [apply surjective_pairing|vm_compute; discriminate].
Defined.

Lemma handleReviewRequest_headers P E request w r w' :
  Worker.handleReviewRequest P E request w = (Ok r, w') ->
  headers r = Worker.corsHeaders.
Proof.
  intros Hrun. destruct (Worker.req_body request) as [b|] eqn:Hb.
  - destruct (truthy (Worker.rq_code b)) eqn:Hc;
      [destruct (truthy (Worker.rq_language b)) eqn:Hl|].
    + destruct (handleReviewRequest_success _ _ _ _ _ _ _ Hb Hc Hl Hrun)
        as (a & e & rid & ts & _ & -> & _). reflexivity.
    + revert Hrun. unfold Worker.handleReviewRequest, Worker.request_json.
      rewrite Hb. unfold bind at 1, ret at 1. rewrite Hc, Hl. simpl.
      unfold ret. by intros [= <- _].
    + revert Hrun. unfold Worker.handleReviewRequest, Worker.request_json.
      rewrite Hb. unfold bind at 1, ret at 1. rewrite Hc. simpl.
      unfold ret. by intros [= <- _].
  - revert Hrun. unfold Worker.handleReviewRequest, Worker.request_json.
    rewrite Hb. unfold bind, throw. discriminate.
Qed.

Lemma handleGetReviews_headers P request w r w' :
  Worker.handleGetReviews P request w = (Ok r, w') ->
  headers r = Worker.corsHeaders.
Proof.
  unfold Worker.handleGetReviews.
  destruct (truthy (Worker.req_param request)); simpl;
    [|unfold ret; by intros [= <- _]].
  unfold bind, json, ret, throw.
  destruct (Worker.session_fetch P _ _ w) as [[r1|e] w1]; [|discriminate].
  destruct (body r1); try discriminate; by intros [= <- _].
Qed.

Lemma handleClearSession_headers P request w r w' :
  Worker.handleClearSession P request w = (Ok r, w') ->
  headers r = Worker.corsHeaders.
Proof.
  unfold Worker.handleClearSession, Worker.request_json.
  destruct (Worker.req_body request) as [b|];
    [|unfold bind, throw; discriminate].
  unfold bind at 1, ret at 1.
  destruct (truthy (Worker.rq_sessionId b)); simpl;
    [|unfold ret; by intros [= <- _]].
  unfold bind, json, ret, throw.
  destruct (Worker.session_fetch P _ _ w) as [[r1|e] w1]; [|discriminate].
  destruct (body r1); try discriminate; by intros [= <- _].
Qed.

(** X9. The worker always answers: what a handler throws (a body that
    does not parse, the error text of a session object, a rejected
    inference call) is caught and turned into a response, so [fetch]
    itself never throws.  Every response the worker builds carries the
    CORS headers; the only other response is the one the static assets
    (taken to answer) give to a request that matches no API route, which
    touches nothing. *)
Theorem worker_always_answers P E request w :
  exists r w',
    Worker.fetch P E request w = (Ok r, w') /\
    (headers r = Worker.corsHeaders \/
     exists assets,
       Worker.ASSETS E = Some assets /\ r = assets request /\ w' = w).
Proof.
  unfold Worker.fetch.
  case_bool_decide; [unfold ret; eauto|].
  unfold try_catch.
  match goal with
  | |- context [match ?m w with _ => _ end] =>
      destruct (m w) as [[r|e] w1] eqn:Hrun
  end; [|unfold ret; eauto].
  exists r, w1. split; [reflexivity|].
  revert Hrun.
  repeat (case_bool_decide; simpl);
    eauto using handleReviewRequest_headers, handleGetReviews_headers,
      handleClearSession_headers;
    try (unfold bind, ret, Worker.Date_now; intros [= <- <-]; by left);
    (destruct (Worker.ASSETS E) as [assets|] eqn:Ha; unfold ret;
     intros [= <- <-]; [right; eauto|by left]).
Qed.

(** X10. A submission answered with status 200 has appended exactly one
    entry to its session: the list is the old one followed by an entry
    that holds the submitted code, language and context and the review
    text of the response; the response names the session, and its
    reviewId is the id of that entry (when that is non-empty). *)
Theorem submit_appends_one_entry P E request b w r w' :
  Worker.req_method request = "POST" ->
  Worker.req_path request = "/api/review" ->
  Worker.req_body request = Some b ->
  Worker.fetch P E request w = (Ok r, w') ->
  status r = 200 ->
  let key := session_key P b w in
  exists e rv rid flag ts,
    body r = JReviewResult key rv rid flag ts /\
    session_history w' key = session_history w key ++ [e] /\
    code e = Worker.str (Worker.rq_code b) /\
    language e = Worker.str (Worker.rq_language b) /\
    review e = rv /\
    context e = Worker.rq_context b /\
    (id e <> "" -> rid = id e).
Proof.
  intros Hm Hp Hb Hrun Hst key.
  destruct (truthy (Worker.rq_code b) && truthy (Worker.rq_language b)) eqn:Hv.
  - apply andb_true_iff in Hv as [Hc Hl].
    rewrite fetch_route_review in Hrun by assumption.
    unfold try_catch in Hrun.
    destruct (Worker.handleReviewRequest P E request w) as [[rh|err] wh] eqn:Hh.
    + injection Hrun as <- <-.
      destruct (handleReviewRequest_success _ _ _ _ _ _ _ Hb Hc Hl Hh)
        as (a & e & rid & ts & _ & -> & Hhist & Hce & Hle & Hre & Hxe & Hid).
      exists e. eexists _, rid, _, ts. split; [reflexivity|]. auto 10.
    + injection Hrun as <- <-. discriminate Hst.
  - rewrite (submit_rejected _ _ _ _ _ Hm Hp Hb Hv) in Hrun.
    injection Hrun as <- <-. discriminate Hst.
Qed.

Lemma submit_appends_one_entry_witness :
  let run := Worker.fetch Ex.P_ok Ex.E_ok
               (Ex.submit (Some "x = 3") (Some "python") (Some "s1")) Ex.w1 in
  exists r e,
    fst run = Ok r /\
    session_history (snd run) "s1" = [Ex.e1; Ex.e2; e].
Proof.
  intros run.
  destruct run as [out w'] eqn:Hrun.
  assert (Hout : exists r, out = Ok r /\ status r = 200).
  { revert Hrun. unfold run. vm_compute. intros [= <- _]. eauto. }
  destruct Hout as (r & -> & Hst).
  destruct (submit_appends_one_entry Ex.P_ok Ex.E_ok
              (Ex.submit (Some "x = 3") (Some "python") (Some "s1"))
              (Worker.mkReviewRequest (Some "x = 3") (Some "python") None
                 (Some "s1"))
              Ex.w1 r w' eq_refl eq_refl eq_refl Hrun Hst)
    as (e & rv & rid & flag & ts & _ & Hh & _).
  exists r, e. split; [reflexivity|]. exact Hh.
Defined.

(** X11. Listing a session is a pure read of the lists: with a
    non-empty sessionId parameter the worker sends one request to that
    session object and none to the inference service, the answer is the
    session's whole list in insertion order (or the generic error when
    storage failed), and no session's list has changed. *)
Theorem list_returns_history P E request w out w' :
  Worker.req_method request = "GET" ->
  Worker.req_path request = "/api/session/reviews" ->
  truthy (Worker.req_param request) = true ->
  Worker.fetch P E request w = (out, w') ->
  let key := Worker.str (Worker.req_param request) in
  (forall k, session_history w' k = session_history w k) /\
  new_events w w' = [Worker.DoFetch key reviews_request] /\
  (out = Ok (mkResponse 200 Worker.corsHeaders
               (JReviews (session_history w key))) \/
   exists err n op msg,
     storage_fault P n op = Some err /\
     out = Ok (mkResponse 500 Worker.corsHeaders
                 (JError "Internal Server Error" (Some msg)))).
Proof.
  intros Hm Hp Hq Hrun key.
  rewrite fetch_route_list in Hrun by assumption.
  unfold try_catch, Worker.handleGetReviews in Hrun. rewrite Hq in Hrun.
  simpl in Hrun. unfold bind at 1 in Hrun.
  change (ReviewSession.mkRequest "/reviews" "GET" None) with reviews_request
    in Hrun.
  fold key in Hrun.
  destruct (Worker.session_fetch P key reviews_request w) as [o w1] eqn:Hs.
  apply session_fetch_reviews in Hs as (Hall & Htr & _ & Hcase).
  assert (Hev : new_events w w1 = [Worker.DoFetch key reviews_request]).
  { unfold new_events. rewrite Htr. apply drop_app_length. }
  destruct Hcase as [->|(err & n & op & Hf & ->)];
    unfold bind, json, ret, throw in Hrun; simpl in Hrun;
    injection Hrun as <- <-; (split; [exact Hall|]); (split; [exact Hev|]).
  - by left.
  - right. eauto 10.
Qed.

Lemma list_returns_history_witness :
  let run := Worker.fetch Ex.P_ok Ex.E_ok Ex.list_s1 Ex.w1 in
  fst run = Ok (mkResponse 200 Worker.corsHeaders (JReviews [Ex.e1; Ex.e2])).
Proof.
  intros run.
  destruct (list_returns_history Ex.P_ok Ex.E_ok Ex.list_s1 Ex.w1
              (fst run) (snd run) eq_refl eq_refl eq_refl
              (surjective_pairing run)) as (_ & _ & [Hok|Hfail]).
  - exact Hok.
  - destruct Hfail as (err & n & op & msg & Hf & _). discriminate Hf.
Defined.

(** X12. Clearing a session: with a non-empty sessionId the worker
    sends one clear request to that session object.  When the answer is
    the success acknowledgement the session's list is empty; otherwise a
    save failed and the answer is the generic error.  Either way the
    other sessions keep their lists. *)
Theorem clear_empties_session P E request b w out w' :
  Worker.req_method request = "POST" ->
  Worker.req_path request = "/api/session/clear" ->
  Worker.req_body request = Some b ->
  truthy (Worker.rq_sessionId b) = true ->
  Worker.fetch P E request w = (out, w') ->
  let key := Worker.str (Worker.rq_sessionId b) in
  (forall k, k <> key -> session_history w' k = session_history w k) /\
  new_events w w' = [Worker.DoFetch key clear_request] /\
  ((out = Ok (mkResponse 200 Worker.corsHeaders JSuccess) /\
    session_history w' key = []) \/
   exists err n msg,
     storage_fault P n Put = Some err /\
     out = Ok (mkResponse 500 Worker.corsHeaders
                 (JError "Internal Server Error" (Some msg)))).
Proof.
  intros Hm Hp Hb Hq Hrun key.
  rewrite fetch_route_clear in Hrun by assumption.
  unfold try_catch, Worker.handleClearSession, Worker.request_json in Hrun.
  rewrite Hb in Hrun. unfold bind at 1, ret at 1 in Hrun.
  rewrite Hq in Hrun. simpl in Hrun. unfold bind at 1 in Hrun.
  change (ReviewSession.mkRequest "/clear" "POST" None) with clear_request
    in Hrun.
  fold key in Hrun.
  destruct (Worker.session_fetch P key clear_request w) as [o w1] eqn:Hs.
  apply session_fetch_object in Hs as (d' & Hf & Hh & Htr & _ & Hothers).
  assert (Hev : new_events w w1 = [Worker.DoFetch key clear_request]).
  { unfold new_events. rewrite Htr. apply drop_app_length. }
  assert (Hoth : forall k, k <> key ->
            session_history w1 k = session_history w k).
  { intros k Hk. destruct (Hothers k Hk).
    apply history_unchanged_elsewhere; assumption. }
  rewrite fetch_clear in Hf.
  destruct (ReviewSession.clearReviews P (Worker.object_of P key w))
    as [oc dc] eqn:Hc.
  apply clearReviews_outcome in Hc as [[-> Hempty]|(err & n & Hput & ->)];
    injection Hf as <- <-;
    unfold bind, json, ret, throw in Hrun; simpl in Hrun;
    injection Hrun as <- <-; (split; [exact Hoth|]); (split; [exact Hev|]).
  - left. split; [reflexivity|]. by rewrite Hh.
  - right. eauto 10.
Qed.

Lemma clear_empties_session_witness :
  let run := Worker.fetch Ex.P_ok Ex.E_ok Ex.clear_s1 Ex.w1 in
  session_history (snd run) "s1" = [].
Proof.
  intros run.
  destruct (clear_empties_session Ex.P_ok Ex.E_ok Ex.clear_s1
              (Worker.mkReviewRequest None None None (Some "s1")) Ex.w1
              (fst run) (snd run) eq_refl eq_refl eq_refl eq_refl
              (surjective_pairing run)) as (_ & _ & [[_ Hempty]|Hfail]).
  - exact Hempty.
  - destruct Hfail as (err & n & msg & Hf & _). discriminate Hf.
Defined.

(** X13. A submit or clear request whose body does not parse as JSON is
    not a validation error: [request.json()] throws before any field is
    looked at, and the caller gets the generic 500 response.  Nothing
    was touched. *)
Theorem unparseable_body_is_internal_error P E request w :
  Worker.req_method request = "POST" ->
  Worker.req_path request = "/api/review" \/
  Worker.req_path request = "/api/session/clear" ->
  Worker.req_body request = None ->
  exists msg,
    Worker.fetch P E request w =
    (Ok (mkResponse 500 Worker.corsHeaders
           (JError "Internal Server Error" (Some msg))), w).
Proof.
  intros Hm [Hp|Hp] Hb.
  - rewrite fetch_route_review by assumption.
    unfold try_catch, Worker.handleReviewRequest, Worker.request_json.
    rewrite Hb. eexists. reflexivity.
  - rewrite fetch_route_clear by assumption.
    unfold try_catch, Worker.handleClearSession, Worker.request_json.
    rewrite Hb. eexists. reflexivity.
Qed.

Lemma unparseable_body_is_internal_error_witness :
  exists msg,
    Worker.fetch Ex.P_ok Ex.E_ok
      (Worker.mkRequest "POST" "/api/review" None None) Ex.w1 =
    (Ok (mkResponse 500 Worker.corsHeaders
           (JError "Internal Server Error" (Some msg))), Ex.w1).
Proof.
  apply unparseable_body_is_internal_error;
    [reflexivity|left; reflexivity|reflexivity].
Defined.

(** X14. An empty sessionId counts as a missing one on list and clear:
    the request gets a 400 validation error and nothing is touched. *)
Theorem empty_sessionId_rejected P E request w :
  (Worker.req_method request = "GET" /\
   Worker.req_path request = "/api/session/reviews" /\
   Worker.req_param request = Some "") \/
  (Worker.req_method request = "POST" /\
   Worker.req_path request = "/api/session/clear" /\
   exists b, Worker.req_body request = Some b /\
             Worker.rq_sessionId b = Some "") ->
  exists msg,
    Worker.fetch P E request w =
    (Ok (mkResponse 400 Worker.corsHeaders (JError msg None)), w).
Proof.
  intros [(Hm & Hp & Hq)|(Hm & Hp & b & Hb & Hs)].
  - rewrite fetch_route_list by assumption.
    unfold try_catch, Worker.handleGetReviews. rewrite Hq.
    eexists. reflexivity.
  - rewrite fetch_route_clear by assumption.
    unfold try_catch, Worker.handleClearSession, Worker.request_json.
    rewrite Hb. unfold bind at 1, ret at 1. rewrite Hs. eexists. reflexivity.
Qed.

Lemma empty_sessionId_rejected_witness :
  exists msg,
    Worker.fetch Ex.P_ok Ex.E_ok
      (Worker.mkRequest "GET" "/api/session/reviews" (Some "") None) Ex.w1 =
    (Ok (mkResponse 400 Worker.corsHeaders (JError msg None)), Ex.w1).
Proof.
  apply empty_sessionId_rejected. left. repeat split.
Defined.

(** On submit an empty sessionId is the same as none: the worker draws
    a fresh session key, so the two requests run identically. *)
Lemma empty_sessionId_starts_new_session P E method path param
  (code language context : option string) w :
  Worker.handleReviewRequest P E
    (Worker.mkRequest method path param
       (Some (Worker.mkReviewRequest code language context (Some "")))) w
  = Worker.handleReviewRequest P E
      (Worker.mkRequest method path param
         (Some (Worker.mkReviewRequest code language context None))) w.
Proof. reflexivity. Qed.

(** X15. A read creates the session.  The first list request for a key
    that has neither an object in memory nor persisted state is answered
    with the empty list and, when storage works, leaves a persisted
    state behind: no reviews, createdAt the time the object was
    constructed. *)
Theorem first_list_creates_session P E request w :
  Worker.req_method request = "GET" ->
  Worker.req_path request = "/api/session/reviews" ->
  truthy (Worker.req_param request) = true ->
  let key := Worker.str (Worker.req_param request) in
  let now := n_clock (Worker.ctr w) in
  Worker.instances w !! key = None ->
  Worker.storages w !! key = None ->
  storage_fault P (n_io (Worker.ctr w)) Get = None ->
  storage_fault P (S (n_io (Worker.ctr w))) Put = None ->
  exists w',
    Worker.fetch P E request w =
      (Ok (mkResponse 200 Worker.corsHeaders (JReviews [])), w') /\
    Worker.storages w' !! key =
      Some (mkSessionState [] (clock P now) (clock P (S (S now)))).
Proof.
  intros Hm Hp Hq key now Hi Hs Hget Hput.
  rewrite fetch_route_list by assumption.
  unfold try_catch, Worker.handleGetReviews. rewrite Hq. simpl.
  unfold bind at 1. fold key.
  unfold Worker.session_fetch, Worker.object_of. rewrite Hi, Hs.
  change (ReviewSession.mkRequest "/reviews" "GET" None) with reviews_request.
  rewrite fetch_reviews. unfold ReviewSession.constructor. js_unfold.
  rewrite Hget. js_unfold. rewrite Hput. simpl.
  eexists. split; [reflexivity|]. simpl. by rewrite lookup_insert_eq.
Qed.

Lemma first_list_creates_session_witness :
  exists w',
    Worker.fetch Ex.P_ok Ex.E_ok
      (Worker.mkRequest "GET" "/api/session/reviews" (Some "new") None) Ex.w1
    = (Ok (mkResponse 200 Worker.corsHeaders (JReviews [])), w') /\
    Worker.storages w' !! "new" = Some (mkSessionState [] 5000 5002).
Proof.
  apply (first_list_creates_session Ex.P_ok Ex.E_ok
           (Worker.mkRequest "GET" "/api/session/reviews" (Some "new") None)
           Ex.w1); reflexivity.
Defined.

Lemma grows_refl w : grows w w.
Proof. intros k. reflexivity. Qed.

Lemma grows_trans w1 w2 w3 : grows w1 w2 -> grows w2 w3 -> grows w1 w3.
Proof. intros H12 H23 k. by transitivity (session_history w2 k). Qed.

Lemma grows_same_sessions w w' :
  Worker.instances w' = Worker.instances w ->
  Worker.storages w' = Worker.storages w ->
  grows w w'.
Proof. intros Hi Hs k. unfold session_history. by rewrite Hi, Hs. Qed.

Lemma preserves_ret {A} (a : A) : preserves grows (ret a).
Proof. intros w out w' [= _ <-]. apply grows_refl. Qed.

Lemma preserves_throw {A} (err : string) : preserves grows (@throw _ A err).
Proof. intros w out w' [= _ <-]. apply grows_refl. Qed.

Lemma preserves_bind {A B} (m : M Worker.World A) (k : A -> M Worker.World B) :
  preserves grows m -> (forall a, preserves grows (k a)) ->
  preserves grows (bind m k).
Proof.
  intros Hm Hk w out w'. unfold bind.
  destruct (m w) as [[a|err] w1] eqn:H1.
  - intros H2. eapply grows_trans; [eapply Hm, H1|eapply Hk, H2].
  - intros [= _ <-]. eapply Hm, H1.
Qed.

Lemma preserves_json (r : Response) : preserves grows (json r).
Proof.
  unfold json. destruct (body r);
    first [apply preserves_ret | apply preserves_throw].
Qed.

Lemma preserves_session_fetch P key request :
  ReviewSession.req_path request <> "/clear" ->
  preserves grows (Worker.session_fetch P key request).
Proof.
  intros Hpath w out w' Hs k.
  apply session_fetch_object in Hs as (d' & Hf & Hh & _ & _ & Hothers).
  destruct (decide (k = key)) as [->|Hne].
  - rewrite Hh, <- (object_of_history P key w).
    eapply fetch_grows; [exact Hpath|exact Hf].
  - destruct (Hothers k Hne) as [Hi Hst].
    by rewrite (history_unchanged_elsewhere w w' k Hi Hst).
Qed.

Lemma handleReviewRequest_grows P E request :
  preserves grows (Worker.handleReviewRequest P E request).
Proof.
  unfold Worker.handleReviewRequest, Worker.request_json.
  repeat first
    [ apply preserves_ret
    | apply preserves_throw
    | apply preserves_json
    | apply preserves_session_fetch; discriminate
    | apply preserves_bind; [|intros ?]
    | match goal with
      | |- preserves _ (if ?c then _ else _) => destruct c
      | |- preserves _ (match ?x with _ => _ end) => destruct x
      | |- preserves _ (Worker.randomUUID _) =>
          intros ? ? ? [= _ <-]; by apply grows_same_sessions
      | |- preserves _ (Worker.Date_now _) =>
          intros ? ? ? [= _ <-]; by apply grows_same_sessions
      | |- preserves _ (Worker.AI _ _ _) =>
          intros ? ? ? [= _ <-]; by apply grows_same_sessions
      end ].
Qed.

(** X16. Only a clear request removes entries.  Whatever else the worker
    is asked, and however the request ends (answered, rejected, failed
    half way), every session's review list afterwards starts with the
    list it had before: no entry is dropped, changed or reordered. *)
Theorem only_clear_shrinks P E request w out w' :
  ~ (Worker.req_method request = "POST" /\
     Worker.req_path request = "/api/session/clear") ->
  Worker.fetch P E request w = (out, w') ->
  grows w w'.
Proof.
  intros Hnot Hrun.
  destruct (fetch_cases _ _ _ _ _ _ Hrun) as
    [->|[(b & Hm & Hp & Hb & Hc & Hl & outh & Hh)
        |[(Hm & Hp & Hq & o & Hs)
         |[(b & Hm & Hp & Hb & Hq & o & Hs)
          |(Hm & Hp & Hi & Hs & _)]]]].
  - apply grows_refl.
  - eapply handleReviewRequest_grows, Hh.
  - apply session_fetch_reviews in Hs as (Hall & _).
    intros k. by rewrite Hall.
  - tauto.
  - by apply grows_same_sessions.
Qed.

Lemma only_clear_shrinks_witness :
  let run := Worker.fetch Ex.P_ok Ex.E_down
               (Ex.submit (Some "x = 3") (Some "python") (Some "s1")) Ex.w1 in
  grows Ex.w1 (snd run).
Proof.
  intros run.
  apply (only_clear_shrinks Ex.P_ok Ex.E_down
           (Ex.submit (Some "x = 3") (Some "python") (Some "s1")) Ex.w1
           (fst run) (snd run));
    [intros [_ H]; discriminate H|apply surjective_pairing].
Defined.

(** What a list request answers, in terms of the world it runs in. *)
Lemma list_run P E request w out w' :
  Worker.req_method request = "GET" ->
  Worker.req_path request = "/api/session/reviews" ->
  truthy (Worker.req_param request) = true ->
  Worker.fetch P E request w = (out, w') ->
  out = Ok (mkResponse 200 Worker.corsHeaders
              (JReviews (session_history w
                           (Worker.str (Worker.req_param request))))) \/
  exists err n op msg,
    storage_fault P n op = Some err /\
    out = Ok (mkResponse 500 Worker.corsHeaders
                (JError "Internal Server Error" (Some msg))).
Proof.
  intros Hm Hp Hq Hrun.
  rewrite fetch_route_list in Hrun by assumption.
  unfold try_catch, Worker.handleGetReviews in Hrun. rewrite Hq in Hrun.
  simpl in Hrun. unfold bind at 1 in Hrun.
  change (ReviewSession.mkRequest "/reviews" "GET" None) with reviews_request
    in Hrun.
  destruct (Worker.session_fetch P _ reviews_request w) as [o w1] eqn:Hs.
  apply session_fetch_reviews in Hs as (_ & _ & _ & Hcase).
  destruct Hcase as [->|(err & n & op & Hf & ->)];
    unfold bind, json, ret, throw in Hrun; simpl in Hrun;
    injection Hrun as <- <-; [by left|right; eauto 10].
Qed.

(** A submission answered with status 200 ran the handler to its end. *)
Lemma submit_ok_run P E request b w r w' :
  Worker.req_method request = "POST" ->
  Worker.req_path request = "/api/review" ->
  Worker.req_body request = Some b ->
  Worker.fetch P E request w = (Ok r, w') ->
  status r = 200 ->
  truthy (Worker.rq_code b) = true /\ truthy (Worker.rq_language b) = true /\
  Worker.handleReviewRequest P E request w = (Ok r, w').
Proof.
  intros Hm Hp Hb Hrun Hst.
  destruct (truthy (Worker.rq_code b) && truthy (Worker.rq_language b)) eqn:Hv.
  - apply andb_true_iff in Hv as [Hc Hl].
    rewrite fetch_route_review in Hrun by assumption.
    unfold try_catch in Hrun.
    destruct (Worker.handleReviewRequest P E request w) as [[rh|err] wh];
      injection Hrun as <- <-; [auto|discriminate Hst].
  - rewrite (submit_rejected _ _ _ _ _ Hm Hp Hb Hv) in Hrun.
    injection Hrun as <- <-. discriminate Hst.
Qed.

(** X17. Submit, then list.  After a submission answered with status
    200, a list request for the sessionId of the response returns the
    list the session had before the submission followed by one entry,
    which carries the review text of the response (storage failing
    during the list being the only other outcome). *)
Theorem submit_then_list P E request b w r w1 lrequest out w2 :
  Worker.req_method request = "POST" ->
  Worker.req_path request = "/api/review" ->
  Worker.req_body request = Some b ->
  Worker.fetch P E request w = (Ok r, w1) ->
  status r = 200 ->
  Worker.req_method lrequest = "GET" ->
  Worker.req_path lrequest = "/api/session/reviews" ->
  session_key P b w <> "" ->
  Worker.req_param lrequest = Some (session_key P b w) ->
  Worker.fetch P E lrequest w1 = (out, w2) ->
  exists e rv rid flag ts,
    body r = JReviewResult (session_key P b w) rv rid flag ts /\
    review e = rv /\
    (out = Ok (mkResponse 200 Worker.corsHeaders
                 (JReviews (session_history w (session_key P b w) ++ [e]))) \/
     exists err n op msg,
       storage_fault P n op = Some err /\
       out = Ok (mkResponse 500 Worker.corsHeaders
                   (JError "Internal Server Error" (Some msg)))).
Proof.
  intros Hm Hp Hb Hrun Hst Hlm Hlp Hkey Hparam Hlist.
  destruct (submit_ok_run _ _ _ _ _ _ _ Hm Hp Hb Hrun Hst) as (Hc & Hl & Hh).
  destruct (handleReviewRequest_success _ _ _ _ _ _ _ Hb Hc Hl Hh)
    as (a & e & rid & ts & _ & -> & Hhist & _ & _ & Hre & _).
  exists e. eexists _, rid, _, ts. split; [reflexivity|]. split; [exact Hre|].
  assert (Hq : truthy (Worker.req_param lrequest) = true).
  { rewrite Hparam. unfold truthy. by rewrite bool_decide_eq_false_2. }
  pose proof (list_run _ _ _ _ _ _ Hlm Hlp Hq Hlist) as Hcases.
  rewrite Hparam in Hcases. simpl in Hcases. by rewrite Hhist in Hcases.
Qed.

Lemma submit_then_list_witness :
  let run1 := Worker.fetch Ex.P_ok Ex.E_ok
                (Ex.submit (Some "x = 3") (Some "python") (Some "s1")) Ex.w1 in
  let run2 := Worker.fetch Ex.P_ok Ex.E_ok Ex.list_s1 (snd run1) in
  exists e,
    review e = "LGTM" /\
    fst run2 = Ok (mkResponse 200 Worker.corsHeaders
                     (JReviews [Ex.e1; Ex.e2; e])).
Proof.
  intros run1 run2.
  destruct run1 as [out1 w1] eqn:Hrun1.
  assert (Hout : exists rid ts,
            out1 = Ok (mkResponse 200 Worker.corsHeaders
                         (JReviewResult "s1" "LGTM" rid true ts))).
  { revert Hrun1. unfold run1. vm_compute. intros [= <- _]. eauto. }
  destruct Hout as (rid0 & ts0 & ->).
  destruct (submit_then_list Ex.P_ok Ex.E_ok
              (Ex.submit (Some "x = 3") (Some "python") (Some "s1"))
              (Worker.mkReviewRequest (Some "x = 3") (Some "python") None
                 (Some "s1"))
              Ex.w1 _ w1 Ex.list_s1 (fst run2) (snd run2)
              eq_refl eq_refl eq_refl Hrun1 eq_refl eq_refl eq_refl
              ltac:(discriminate) eq_refl (surjective_pairing run2))
    as (e & rv & rid & flag & ts & [= <- _ _ _] & Hre & [Hok|Hfail]).
  - exists e. split; [exact Hre|exact Hok].
  - destruct Hfail as (err & n & op & msg & Hf & _). discriminate Hf.
Defined.

(** [getReviews] returns exactly when its load and its save succeed. *)
Lemma getReviews_ok_iff P d out d' :
  ReviewSession.getReviews P d = (out, d') ->
  (exists l, out = Ok l) <->
  storage_fault P (n_io (ReviewSession.ctr d)) Get = None /\
  storage_fault P (S (n_io (ReviewSession.ctr d))) Put = None.
Proof.
  destruct d as [st sto k]. js_unfold.
  destruct (storage_fault P (n_io k) Get) eqn:Hget.
  - intros [= <- <-]. split; [intros [l [=]]|intros [[=] _]].
  - destruct sto as [s|]; js_unfold;
      destruct (storage_fault P (S (n_io k)) Put) eqn:Hput;
      intros [= <- <-]; (split; [intros [l Hl]|intros [_ Hp]]);
      first [discriminate | eauto].
Qed.

Lemma object_of_n_io P key w :
  n_io (ReviewSession.ctr (Worker.object_of P key w)) = n_io (Worker.ctr w).
Proof. unfold Worker.object_of. by destruct (Worker.instances w !! key). Qed.

(** The read of the history through the stub is answered with the list
    exactly when the load and the save succeed. *)
Lemma session_fetch_reviews_io P key w out w' :
  Worker.session_fetch P key reviews_request w = (out, w') ->
  (exists l, out = Ok (mkResponse 200 [] (JReviews l))) <-> read_succeeds P w.
Proof.
  unfold Worker.session_fetch, read_succeeds. rewrite fetch_reviews.
  destruct (ReviewSession.getReviews P (Worker.object_of P key w))
    as [outg d'] eqn:Hg.
  apply getReviews_ok_iff in Hg. rewrite object_of_n_io in Hg.
  rewrite <- Hg.
  destruct outg as [l|err]; intros [= <- _];
    (split; [intros [l' Hl']|intros [l' Hl']]); first [discriminate | eauto].
Qed.

(** The runs of [handleReviewRequest] on a request that passes
    validation, by what the storage and the inference service did. *)
Lemma handleReviewRequest_cases_io P E request b w out w' :
  Worker.req_body request = Some b ->
  truthy (Worker.rq_code b) = true ->
  truthy (Worker.rq_language b) = true ->
  Worker.handleReviewRequest P E request w = (out, w') ->
  let key := session_key P b w in
  let inputs := ai_inputs (user_prompt (session_history w key) b) in
  let D1 := Worker.DoFetch key reviews_request in
  let A := Worker.AiRun Worker.MODEL inputs in
  (~ read_succeeds P w /\ (exists msg, out = Throw msg) /\
   new_events w w' = [D1]) \/
  (read_succeeds P w /\
   exists err,
     Worker.AI_run E (n_ai (Worker.ctr w)) Worker.MODEL inputs = Throw err /\
     out = Throw err /\ new_events w w' = [D1; A]) \/
  (read_succeeds P w /\
   exists a D2,
     Worker.AI_run E (n_ai (Worker.ctr w)) Worker.MODEL inputs = Ok a /\
     is_add_review D2 /\ new_events w w' = [D1; A; D2]).
Proof.
  intros Hbody Hcode Hlang.
  unfold Worker.handleReviewRequest, Worker.request_json.
  rewrite Hbody. unfold bind at 1, ret at 1. rewrite Hcode, Hlang. simpl.
  unfold bind at 1.
  assert (Hkey : exists w0,
    (if truthy (Worker.rq_sessionId b)
     then ret (Worker.str (Worker.rq_sessionId b))
     else Worker.randomUUID P) w = (Ok (session_key P b w), w0) /\
    Worker.instances w0 = Worker.instances w /\
    Worker.storages w0 = Worker.storages w /\
    Worker.trace w0 = Worker.trace w /\
    n_ai (Worker.ctr w0) = n_ai (Worker.ctr w) /\
    n_io (Worker.ctr w0) = n_io (Worker.ctr w)).
  { unfold session_key. destruct (truthy (Worker.rq_sessionId b));
      eexists; (split; [reflexivity|]); auto 10. }
  destruct Hkey as (w0 & -> & Hi0 & Hs0 & Ht0 & Hai0 & Hio0).
  set (key := session_key P b w).
  change (ReviewSession.mkRequest "/reviews" "GET" None) with reviews_request.
  unfold bind at 1.
  destruct (Worker.session_fetch P key reviews_request w0) as [out1 w1] eqn:H1.
  pose proof (session_fetch_reviews_io _ _ _ _ _ H1) as Hread.
  unfold read_succeeds in Hread. rewrite Hio0 in Hread.
  fold (read_succeeds P w) in Hread.
  apply session_fetch_reviews in H1 as (_ & Ht1 & Hai1 & Hcase1).
  assert (Hh0 : session_history w0 key = session_history w key).
  { unfold session_history. by rewrite Hi0, Hs0. }
  rewrite Hh0 in Hcase1. rewrite Ht0 in Ht1. clear Hh0 Hi0 Hs0 Ht0.
  destruct Hcase1 as [->|(err & n & op & Hf & ->)].
  - assert (Hok : read_succeeds P w) by (apply Hread; eauto).
    unfold json at 1. simpl. unfold bind at 1, ret at 1. unfold bind at 1, ret at 1.
    rewrite latest_prompt. unfold bind at 1, ret at 1.
    unfold bind at 1, Worker.AI at 1. rewrite Hai1, Hai0.
    fold (user_prompt (session_history w key) b).
    fold (ai_inputs (user_prompt (session_history w key) b)).
    destruct (Worker.AI_run E (n_ai (Worker.ctr w)) Worker.MODEL
                (ai_inputs (user_prompt (session_history w key) b)))
      as [a|err] eqn:Hai.
    + fold (review_text a). unfold bind at 1.
      match goal with
      | |- context [Worker.session_fetch P key ?rq ?w2] =>
          destruct (Worker.session_fetch P key rq w2) as [out2 w3] eqn:H2
      end.
      pose proof (session_fetch_other _ _ _ _ _ _ H2) as [_ Ht3].
      simpl in Ht3. rewrite Ht1 in Ht3.
      assert (Hev : exists D2, is_add_review D2 /\
                new_events w w3 =
                [Worker.DoFetch key reviews_request;
                 Worker.AiRun Worker.MODEL
                   (ai_inputs (user_prompt (session_history w key) b)); D2]).
      { eexists. split; [|unfold new_events; rewrite Ht3, <- !app_assoc;
                          apply drop_app_length]. reflexivity. }
      destruct Hev as (D2 & Hadd & Hev).
      assert (Htr : Worker.trace w' = Worker.trace w3 ->
                new_events w w' = new_events w w3).
      { unfold new_events. by intros ->. }
      intros Hrest. right. right. split; [exact Hok|].
      exists a, D2. split; [reflexivity|]. split; [exact Hadd|].
      rewrite <- Hev. apply Htr. revert Hrest.
      apply session_fetch_add_review in H2
        as [(e & ->)|(err & n & op & Hf & ->)].
      * unfold json at 1. simpl. unfold bind at 1, ret at 1. unfold bind at 1.
        destruct (truthy (Some (id e)));
          unfold bind, ret, Worker.randomUUID, Worker.Date_now;
          by intros [= _ <-].
      * unfold json at 1. simpl. unfold bind, throw. by intros [= _ <-].
    + intros [= <- <-]. right. left. split; [exact Hok|].
      exists err. split; [reflexivity|]. split; [reflexivity|].
      unfold new_events. simpl. rewrite Ht1, <- !app_assoc.
      apply drop_app_length.
  - unfold json at 1. simpl. unfold bind, throw. intros [= <- <-].
    left. split; [|split; [eauto|]].
    + intros Hok. apply Hread in Hok as [l [=]].
    + unfold new_events. rewrite Ht1. apply drop_app_length.
Qed.

(** X18. What a submission does outside the worker, in order: it reads
    the history from its session object; then, if and only if that read
    succeeded (its load and its save), it calls the inference service,
    once; then, if and only if the read succeeded and the service
    resolved, it sends the entry to the same session object.  So its
    outside calls are the read alone, the read and the inference call,
    or all three, and a response is sent only when all three took
    place. *)
Theorem submit_protocol P E request b w out w' :
  Worker.req_body request = Some b ->
  truthy (Worker.rq_code b) = true ->
  truthy (Worker.rq_language b) = true ->
  Worker.handleReviewRequest P E request w = (out, w') ->
  let key := session_key P b w in
  let D1 := Worker.DoFetch key reviews_request in
  let inputs := ai_inputs (user_prompt (session_history w key) b) in
  let A := Worker.AiRun Worker.MODEL inputs in
  let resolved :=
    exists a,
      Worker.AI_run E (n_ai (Worker.ctr w)) Worker.MODEL inputs = Ok a in
  ((new_events w w' = [D1] \/
    new_events w w' = [D1; A] \/
    exists D2, is_add_review D2 /\ new_events w w' = [D1; A; D2]) /\
   (forall r, out = Ok r -> length (new_events w w') = 3%nat)) /\
  (new_events w w' = [D1] <-> ~ read_succeeds P w) /\
  (In A (new_events w w') <-> read_succeeds P w) /\
  (new_events w w' = [D1; A] <-> read_succeeds P w /\ ~ resolved) /\
  ((exists D2, is_add_review D2 /\ In D2 (new_events w w')) <->
   read_succeeds P w /\ resolved) /\
  (forall r, out = Ok r -> read_succeeds P w /\ resolved).
Proof.
  intros Hb Hc Hl Hrun key D1 inputs A resolved.
  pose proof (handleReviewRequest_cases_io _ _ _ _ _ _ _ Hb Hc Hl Hrun)
    as Hcases.
  fold key inputs D1 A in Hcases.
  destruct Hcases as
    [(Hno & (msg & ->) & Hev)
    |[(Hok & err & Hai & -> & Hev)
     |(Hok & a & D2 & Hai & Hadd & Hev)]]; rewrite Hev.
  - split; [split; [by left|discriminate]|].
    split; [tauto|].
    split; [split; [intros [[=]|[]]|tauto]|].
    split; [split; [discriminate|tauto]|].
    split; [|discriminate].
    split; [|tauto].
    intros (D2 & Hadd & [<-|[]]). discriminate Hadd.
  - assert (Hnot : ~ resolved)
      by (intros [a Ha]; unfold inputs, key in *; congruence).
    split; [split; [right; by left|discriminate]|].
    split; [split; [discriminate|tauto]|].
    split; [split; [auto|intros _; right; by left]|].
    split; [tauto|].
    split; [|discriminate].
    split; [|tauto].
    intros (D2 & Hadd & [<-|[<-|[]]]); [discriminate Hadd|destruct Hadd].
  - assert (Hres : resolved) by (exists a; exact Hai).
    split; [split; [right; right; eauto|reflexivity]|].
    split; [split; [discriminate|tauto]|].
    split; [split; [auto|intros _; right; by left]|].
    split; [split; [discriminate|tauto]|].
    split; [|auto].
    split; [auto|]. intros _. exists D2. split; [exact Hadd|].
    right. right. by left.
Qed.

Lemma submit_protocol_witness :
  let request := Ex.submit (Some "x = 3") (Some "python") (Some "s1") in
  let b := Worker.mkReviewRequest (Some "x = 3") (Some "python") None
             (Some "s1") in
  let run := Worker.handleReviewRequest Ex.P_ok Ex.E_down request Ex.w1 in
  read_succeeds Ex.P_ok Ex.w1 /\
  new_events Ex.w1 (snd run) =
    [Worker.DoFetch "s1" reviews_request;
     Worker.AiRun Worker.MODEL (ai_inputs (user_prompt [Ex.e1; Ex.e2] b))].
Proof.
  intros request b run.
  assert (Hok : read_succeeds Ex.P_ok Ex.w1) by (split; reflexivity).
  split; [exact Hok|].
  apply (submit_protocol Ex.P_ok Ex.E_down request b Ex.w1 (fst run) (snd run)
           eq_refl eq_refl eq_refl (surjective_pairing run)).
  split; [exact Hok|]. intros [a Ha]. discriminate Ha.
Defined.

(** A clear request answered with status 200 left its session empty. *)
Lemma clear_ok_run P E request b w r w' :
  Worker.req_method request = "POST" ->
  Worker.req_path request = "/api/session/clear" ->
  Worker.req_body request = Some b ->
  truthy (Worker.rq_sessionId b) = true ->
  Worker.fetch P E request w = (Ok r, w') ->
  status r = 200 ->
  session_history w' (Worker.str (Worker.rq_sessionId b)) = [].
Proof.
  intros Hm Hp Hb Hq Hrun Hst.
  rewrite fetch_route_clear in Hrun by assumption.
  unfold try_catch, Worker.handleClearSession, Worker.request_json in Hrun.
  rewrite Hb in Hrun. unfold bind at 1, ret at 1 in Hrun.
  rewrite Hq in Hrun. simpl in Hrun. unfold bind at 1 in Hrun.
  change (ReviewSession.mkRequest "/clear" "POST" None) with clear_request
    in Hrun.
  destruct (Worker.session_fetch P _ clear_request w) as [o w1] eqn:Hs.
  apply session_fetch_object in Hs as (d' & Hf & Hh & _).
  rewrite fetch_clear in Hf.
  destruct (ReviewSession.clearReviews P _) as [oc dc] eqn:Hc.
  apply clearReviews_outcome in Hc as [[-> Hempty]|(err & n & Hput & ->)];
    injection Hf as <- <-;
    unfold bind, json, ret, throw in Hrun; simpl in Hrun;
    injection Hrun as <- <-; [|discriminate Hst].
  by rewrite Hh.
Qed.

(** X19. Clear, then list.  After a clear request that was answered
    with status 200, a list request for the same sessionId returns the
    empty list (storage failing during the list being the only other
    outcome), whatever the session held before. *)
Theorem clear_then_list_is_empty P E request b w r w1 lrequest out w2 :
  Worker.req_method request = "POST" ->
  Worker.req_path request = "/api/session/clear" ->
  Worker.req_body request = Some b ->
  truthy (Worker.rq_sessionId b) = true ->
  Worker.fetch P E request w = (Ok r, w1) ->
  status r = 200 ->
  Worker.req_method lrequest = "GET" ->
  Worker.req_path lrequest = "/api/session/reviews" ->
  Worker.req_param lrequest = Worker.rq_sessionId b ->
  Worker.fetch P E lrequest w1 = (out, w2) ->
  out = Ok (mkResponse 200 Worker.corsHeaders (JReviews [])) \/
  exists err n op msg,
    storage_fault P n op = Some err /\
    out = Ok (mkResponse 500 Worker.corsHeaders
                (JError "Internal Server Error" (Some msg))).
Proof.
  intros Hm Hp Hb Hq Hrun Hst Hlm Hlp Hparam Hlist.
  pose proof (clear_ok_run _ _ _ _ _ _ _ Hm Hp Hb Hq Hrun Hst) as Hempty.
  assert (Hlq : truthy (Worker.req_param lrequest) = true) by by rewrite Hparam.
  pose proof (list_run _ _ _ _ _ _ Hlm Hlp Hlq Hlist) as Hcases.
  by rewrite Hparam, Hempty in Hcases.
Qed.

Lemma clear_then_list_is_empty_witness :
  let run1 := Worker.fetch Ex.P_ok Ex.E_ok Ex.clear_s1 Ex.w1 in
  let run2 := Worker.fetch Ex.P_ok Ex.E_ok Ex.list_s1 (snd run1) in
  fst run2 = Ok (mkResponse 200 Worker.corsHeaders (JReviews [])).
Proof.
  intros run1 run2.
  destruct (clear_then_list_is_empty Ex.P_ok Ex.E_ok Ex.clear_s1
              (Worker.mkReviewRequest None None None (Some "s1")) Ex.w1
              (mkResponse 200 Worker.corsHeaders JSuccess) (snd run1)
              Ex.list_s1 (fst run2) (snd run2)
              eq_refl eq_refl eq_refl eq_refl
              ltac:(vm_compute; reflexivity) eq_refl eq_refl eq_refl eq_refl
              (surjective_pairing run2)) as [Hok|Hfail].
  - exact Hok.
  - destruct Hfail as (err & n & op & msg & Hf & _). discriminate Hf.
Defined.

(** ** Properties of the prompt templates *)

(** X20. The follow-up prompt carries the previous review in full: for
    the same code and language, two different review texts never give
    the same prompt. *)
Theorem followup_prompt_embeds_review (p p' c l : string) :
  Prompts.createFollowUpPrompt p c l = Prompts.createFollowUpPrompt p' c l ->
  p = p'.
Proof.
  unfold Prompts.createFollowUpPrompt. intros H.
  repeat apply String.app_inj in H.
  by apply string_app_inv_tail in H.
Qed.

Lemma followup_prompt_embeds_review_witness :
  Prompts.createFollowUpPrompt "Still fine." "x = 3" "python"
  = Prompts.createFollowUpPrompt ("Still " +:+ "fine.") "x = 3" "python" /\
  "Still fine." = "Still " +:+ "fine.".
Proof.
  split; [reflexivity|].
  apply (followup_prompt_embeds_review _ _ "x = 3" "python"). reflexivity.
Defined.


(** ** What the worker does not do *)

(** X22. A request that is no preflight and matches none of the four
    (path, method) pairs of the API, an API path with another method
    included, never reaches a handler: it is handed to the static
    assets, whose response is returned as it is, or answered 404 when
    there are none.  Nothing is touched. *)
Theorem unrouted_goes_to_assets P E request w :
  Worker.req_method request <> "OPTIONS" ->
  ~ api_route request ->
  Worker.fetch P E request w =
  (Ok (match Worker.ASSETS E with
       | Some assets => assets request
       | None => mkResponse 404 Worker.corsHeaders (Text "Not Found")
       end), w).
Proof.
  intros Hopt Hnot. unfold Worker.fetch, try_catch, api_route in *.
  rewrite bool_decide_eq_false_2 by assumption.
  repeat (case_bool_decide; simpl); try (exfalso; apply Hnot; auto 10; fail);
    destruct (Worker.ASSETS E); reflexivity.
Qed.

Lemma unrouted_goes_to_assets_witness :
  Worker.fetch Ex.P_ok Ex.E_ok
    (Worker.mkRequest "GET" "/api/review" None None) Ex.w1
  = (Ok (mkResponse 404 Worker.corsHeaders (Text "Not Found")), Ex.w1).
Proof.
  apply (unrouted_goes_to_assets Ex.P_ok Ex.E_ok
           (Worker.mkRequest "GET" "/api/review" None None) Ex.w1).
  - discriminate.
  - intros [[_ H]|[[H _]|[[H _]|[H _]]]]; discriminate H.
Defined.

(** X23. What leaves the worker.  Whatever the request, the session
    objects are only ever asked for /reviews, /add-review or /clear,
    never for /metadata or anything the object would answer with 404,
    and the inference service is only called for a POST on /api/review,
    with the model of the source. *)
Theorem worker_outgoing_calls P E request w out w' (ev : Worker.Event) :
  Worker.fetch P E request w = (out, w') ->
  In ev (new_events w w') ->
  match ev with
  | Worker.DoFetch _ rq =>
      ReviewSession.req_path rq = "/reviews" \/
      ReviewSession.req_path rq = "/add-review" \/
      ReviewSession.req_path rq = "/clear"
  | Worker.AiRun model _ =>
      model = Worker.MODEL /\
      Worker.req_method request = "POST" /\
      Worker.req_path request = "/api/review"
  end.
Proof.
  intros Hrun Hin.
  destruct (fetch_cases _ _ _ _ _ _ Hrun) as
    [->|[(b & Hm & Hp & Hb & Hc & Hl & outh & Hh)
        |[(Hm & Hp & Hq & o & Hs)
         |[(b & Hm & Hp & Hb & Hq & o & Hs)
          |(Hm & Hp & _ & _ & Ht)]]]].
  - rewrite new_events_nil in Hin. destruct Hin.
  - pose proof (handleReviewRequest_cases _ _ _ _ _ _ _ Hb Hc Hl Hh)
      as (_ & Hcases).
    destruct Hcases as
      [(err & n & op & msg & _ & _ & Hev & _)
      |[(err & _ & _ & Hev & _)
       |(a & D2 & _ & Hev & Hadd & _)]]; rewrite Hev in Hin; simpl in Hin.
    + destruct Hin as [<-|[]]. by left.
    + destruct Hin as [<-|[<-|[]]]; [by left|auto].
    + destruct Hin as [<-|[<-|[<-|[]]]]; [by left|auto|].
      destruct D2; [right; by left|destruct Hadd].
  - apply session_fetch_reviews in Hs as (_ & Htr & _).
    unfold new_events in Hin. rewrite Htr, drop_app_length in Hin.
    destruct Hin as [<-|[]]. by left.
  - apply session_fetch_object in Hs as (_ & _ & _ & Htr & _).
    unfold new_events in Hin. rewrite Htr, drop_app_length in Hin.
    destruct Hin as [<-|[]]. right. by right.
  - unfold new_events in Hin. rewrite Ht, drop_all in Hin. destruct Hin.
Qed.

Lemma worker_outgoing_calls_witness :
  let run := Worker.fetch Ex.P_ok Ex.E_ok Ex.clear_s1 Ex.w1 in
  ReviewSession.req_path clear_request = "/reviews" \/
  ReviewSession.req_path clear_request = "/add-review" \/
  ReviewSession.req_path clear_request = "/clear".
Proof.
  intros run.
  apply (worker_outgoing_calls Ex.P_ok Ex.E_ok Ex.clear_s1 Ex.w1
           (fst run) (snd run) (Worker.DoFetch "s1" clear_request)
           (surjective_pairing run)).
  vm_compute. left. reflexivity.
Defined.
